(** * Diabetes Prediction App: the prediction logic of [app.py]

    The script is a Streamlit page.  Each run reads six sidebar widgets,
    and, when the predict button was pressed, either warns about missing
    input or calls the classifier, derives a health score, compares the
    five readings with the table of healthy ranges and renders three tabs
    and a PDF download.

    Numbers.  Python [int]s are [Z].  Python [float]s are modelled by the
    rational numbers they denote ([Q]) and float arithmetic by exact
    rational arithmetic; comparisons between ints and floats are exact in
    Python, hence exact here too.  The two float operations of the script,
    [p * 100] and [100 - proba], round in binary64: the statements about
    the score are therefore the ones that survive that rounding
    ([score_with_rounding], [score_unclamped_with_rounding]), and
    [Binary64] replays the two operations on IEEE doubles, including NaN
    and the infinities, on which [int()] raises.

    Effects.  The prediction block appends to two lists, assigns a few
    names, renders widgets and calls the classifier.  It is written in a
    small state-and-exception monad over [World]; [None] is an uncaught
    Python exception. *)

From Stdlib Require Import ZArith QArith Qround List String Bool Lia Lqa.
From Stdlib Require Floats.
Import ListNotations.

Local Open Scope Z_scope.
Local Open Scope string_scope.

(** ** Python primitives *)

Module Py.

(** [int(x)] on a finite float: truncation toward zero.  On NaN and on
    the infinities Python raises; those are not numbers of this model,
    see [Binary64.int]. *)
Definition int (x : Q) : Z := Z.quot (Qnum x) (Zpos (Qden x)).

(** [a < b] and [a > b] on numbers. *)
Definition lt (a b : Q) : bool := negb (Qle_bool b a).
Definition gt (a b : Q) : bool := lt b a.

(** [None in xs]. *)
Definition none_in {A} (xs : list (option A)) : bool :=
  existsb (fun x => match x with None => true | Some _ => false end) xs.

(** [d[k]] on a dict with string keys, kept in insertion order; [None]
    is [KeyError]. *)
Fixpoint getitem {V} (d : list (string * V)) (k : string) : option V :=
  match d with
  | [] => None
  | (k', v) :: d' => if String.eqb k' k then Some v else getitem d' k
  end.

(** [list(d.keys())]. *)
Definition keys {V} (d : list (string * V)) : list string := map fst d.

(** [zip(xs, ys)]. *)
Definition zip {A B} (xs : list A) (ys : list B) : list (A * B) :=
  combine xs ys.

(** An f-string, kept as its literal pieces and its holes: the text of
    a number is not needed by any statement below. *)
Inductive piece :=
| Lit (s : string)          (* literal text *)
| Str (s : string)          (* {s} for a str *)
| Int (z : Z)               (* {z} for an int *)
| Num (q : Q)               (* {q} for an int or a float *)
| Fix1 (q : Q).             (* {q:.1f} *)

Definition fstring := list piece.

End Py.

Import Py.

(** ** The widgets of one run *)

(** What [user_input()] returns, together with the state of the predict
    button.  [number_input(..., value=None)] yields [None] until the user
    types a number; glucose, blood pressure, insulin and age are integer
    widgets, BMI is a float widget. *)
Record Inputs := mkInputs {
  glucose : option Z;
  blood_pressure : option Z;
  insulin : option Z;
  bmi : option Q;
  age : option Z;
  location : string;
  button : bool
}.

(** The loaded [model], under the contract the script relies on.
    [model.predict(X)] returns one label per row of [X]; [predict] is
    the label of one row.  The script calls it outside any [try], so a
    classifier whose [predict] raises is not covered.
    [has_predict_proba] tells whether the object has a [predict_proba]
    attribute at all; when it has, [predict_proba] is what the call
    returns, [None] standing for a call that raises.  Probabilities are
    finite numbers: on a NaN or an infinity [int()] would raise at
    line 85, outside the [try] (see [Binary64.int]). *)
Record Classifier := mkClassifier {
  predict : list Q -> Z;
  has_predict_proba : bool;
  predict_proba : list (list Q) -> option (list (list Q))
}.

(** ** Reference tables *)

Definition healthy_ranges : list (string * (Q * Q)) :=
  [ ("Glucose", (70, 140)%Q);
    ("Blood Pressure", (60, 120)%Q);
    ("Insulin", (16, 166)%Q);
    ("BMI", (18.5, 24.9)%Q);
    ("Age", (18, 50)%Q) ].

Definition healthy_targets : list (string * Q) :=
  map (fun '(k, (low, high)) => (k, ((low + high) / 2)%Q)) healthy_ranges.

Definition tips : list (string * string) :=
  [ ("Glucose", "Consider reducing sugar intake and increasing physical activity.");
    ("Blood Pressure", "Try reducing salt intake and managing stress.");
    ("Insulin", "Consult with a doctor about insulin resistance and diet control.");
    ("BMI", "A balanced diet and regular exercise may help improve BMI.");
    ("Age", "Regular health checkups are recommended.") ].

(** ** Rendered page and program state *)

Inductive container := sidebar | tab1 | tab2 | tab3 | body.

Record figure := mkFigure {
  your_value : list Q;
  bar_colors : list string;
  healthy_target : list Q;
  xticklabels : list string
}.

Inductive element :=
| st_warning (text : fstring)
| st_error (text : fstring)
| st_success (text : fstring)
| st_subheader (text : fstring)
| st_markdown (text : fstring)
| st_metric (label : string) (value : fstring)
| st_pyplot (fig : figure)
| st_download_button (label : string) (data : fstring) (file_name mime : string).

Inductive call :=
| call_predict (X : list (list Q))
| call_predict_proba (X : list (list Q)).

(** The names the prediction block assigns or mutates, the page rendered
    so far and the calls made into the classifier. *)
Record World := mkWorld {
  prediction : list Z;
  proba : Q;
  health_score : Z;
  colors : list string;
  attention_needed : list fstring;
  page : list (container * element);
  calls : list call
}.

Definition M (A : Type) : Type := World -> option (A * World).

Definition ret {A} (a : A) : M A := fun w => Some (a, w).

Definition bind {A B} (c : M A) (k : A -> M B) : M B :=
  fun w => match c w with
           | Some (a, w') => k a w'
           | None => None
           end.

Definition raise {A} : M A := fun _ => None.

Declare Scope py_scope.
Delimit Scope py_scope with py.
Notation "x <- c ;; k" := (bind c (fun x => k))
  (at level 61, c at next level, right associativity) : py_scope.
Notation "' p <- c ;; k" := (bind c (fun x => match x with p => k end))
  (at level 61, p pattern, c at next level, right associativity) : py_scope.
Notation "c ;; k" := (bind c (fun _ => k))
  (at level 61, right associativity) : py_scope.
Local Open Scope py_scope.

Definition get : M World := fun w => Some (w, w).
Definition modify (f : World -> World) : M unit := fun w => Some (tt, f w).

(** [x = d[k]] and friends: an absent value raises. *)
Definition unwrap {A} (o : option A) : M A :=
  match o with Some a => ret a | None => raise end.

Fixpoint for_each {A} (xs : list A) (body : A -> M unit) : M unit :=
  match xs with
  | [] => ret tt
  | x :: xs' => body x ;; for_each xs' body
  end.

Definition set_prediction (v : list Z) (w : World) : World :=
  mkWorld v (proba w) (health_score w) (colors w) (attention_needed w)
          (page w) (calls w).
Definition set_proba (v : Q) (w : World) : World :=
  mkWorld (prediction w) v (health_score w) (colors w) (attention_needed w)
          (page w) (calls w).
Definition set_health_score (v : Z) (w : World) : World :=
  mkWorld (prediction w) (proba w) v (colors w) (attention_needed w)
          (page w) (calls w).
Definition set_colors (v : list string) (w : World) : World :=
  mkWorld (prediction w) (proba w) (health_score w) v (attention_needed w)
          (page w) (calls w).
Definition set_attention_needed (v : list fstring) (w : World) : World :=
  mkWorld (prediction w) (proba w) (health_score w) (colors w) v
          (page w) (calls w).
Definition set_page (v : list (container * element)) (w : World) : World :=
  mkWorld (prediction w) (proba w) (health_score w) (colors w)
          (attention_needed w) v (calls w).
Definition set_calls (v : list call) (w : World) : World :=
  mkWorld (prediction w) (proba w) (health_score w) (colors w)
          (attention_needed w) (page w) v.

Definition render (c : container) (e : element) : M unit :=
  modify (fun w => set_page (page w ++ [(c, e)])%list w).

Definition log (c : call) : M unit :=
  modify (fun w => set_calls (calls w ++ [c])%list w).

(** ** The prediction logic *)

(** [[glucose, blood_pressure, insulin, bmi, age]], as Python numbers. *)
Definition fields (i : Inputs) : list (option Q) :=
  [ option_map inject_Z (glucose i);
    option_map inject_Z (blood_pressure i);
    option_map inject_Z (insulin i);
    bmi i;
    option_map inject_Z (age i) ].

(** [None in [glucose, blood_pressure, insulin, bmi, age] or location == ""] *)
Definition incomplete (i : Inputs) : bool :=
  none_in (fields i) || (location i =? "").

(** [[f(x) for x in xs]] where [f] may raise. *)
Fixpoint comprehension {A B} (f : A -> option B) (xs : list A)
  : option (list B) :=
  match xs with
  | [] => Some []
  | x :: xs' =>
      match f x with
      | Some y => option_map (cons y) (comprehension f xs')
      | None => None
      end
  end.

(** The five numbers once the completeness check has passed; a [None]
    among them would raise at the first comparison with a bound. *)
Definition patient_values (i : Inputs) : option (list Q) :=
  comprehension (fun x => x) (fields i).

Definition categories : list string := keys healthy_ranges.

(** The body of the [try]: [model.predict_proba(features)[0][1] * 100];
    [None] when anything in it raises: the attribute lookup
    ([AttributeError]), the call, or one of the two indexings
    ([IndexError]). *)
Definition try_proba (m : Classifier) (features : list (list Q)) : option Q :=
  if has_predict_proba m
  then
    match predict_proba m features with
    | Some P =>
        match nth_error P 0 with
        | Some row =>
            match nth_error row 1 with
            | Some p => Some (p * 100)%Q
            | None => None
            end
        | None => None
        end
    | None => None
    end
  else None.

(** [try: proba = ... except: proba = 50].  The call is made, and
    logged, only when the attribute exists. *)
Definition assign_proba (m : Classifier) (features : list (list Q)) : M unit :=
  (if has_predict_proba m
   then log (call_predict_proba features)
   else ret tt) ;;
  match try_proba m features with
  | Some p => modify (set_proba p)
  | None => modify (set_proba 50%Q)
  end.

(** [health_score = int(100 - proba)] *)
Definition assign_health_score : M unit :=
  modify (fun w => set_health_score (int (100 - proba w)%Q) w).

(** [val < low or val > high] *)
Definition outside (val low high : Q) : bool := lt val low || gt val high.

Definition tab1_block (i : Inputs) : M unit :=
  render tab1 (st_subheader [Lit "🔎 Prediction Result"]) ;;
  w <- get ;;
  p0 <- unwrap (nth_error (prediction w) 0) ;;
  (if (p0 =? 1)%Z
   then render tab1 (st_error
          [Lit "⚠️ The model predicts this person **may have diabetes**."])
   else render tab1 (st_success
          [Lit "✅ The model predicts this person is **unlikely to have diabetes**."])) ;;
  render tab1 (st_metric "Diabetes Risk Probability" [Fix1 (proba w); Lit "%"]) ;;
  render tab1 (st_metric "Health Score" [Int (health_score w); Lit "/100"]) ;;
  render tab1 (st_markdown [Lit "**📍 Location:** "; Str (location i)]).

(** The first pass over the readings: bar colours and attention list. *)
Definition chart_loop (rows : list (string * Q)) : M unit :=
  for_each rows (fun '(cat, val) =>
    '(low, high) <- unwrap (getitem healthy_ranges cat) ;;
    if outside val low high
    then
      modify (fun w => set_colors (colors w ++ ["#E74C3C"])%list w) ;;
      modify (fun w => set_attention_needed
        (attention_needed w ++
         [[Lit "- **"; Str cat; Lit "** is outside the healthy range (";
           Num low; Lit "–"; Num high; Lit ")."]])%list w)
    else
      modify (fun w => set_colors (colors w ++ ["#27AE60"])%list w)).

Definition tab2_block (values : list Q) : M unit :=
  target_values <-
    unwrap (comprehension (getitem healthy_targets) categories) ;;
  modify (set_colors []) ;;
  modify (set_attention_needed []) ;;
  chart_loop (zip categories values) ;;
  w <- get ;;
  render tab2 (st_pyplot (mkFigure values (colors w) target_values categories)).

(** The second pass over the readings: one tip per reading outside its
    range. *)
Definition tips_loop (rows : list (string * Q)) : M unit :=
  for_each rows (fun '(cat, val) =>
    '(low, high) <- unwrap (getitem healthy_ranges cat) ;;
    if outside val low high
    then
      tip <- unwrap (getitem tips cat) ;;
      render tab3 (st_markdown [Lit "- "; Str tip])
    else ret tt).

Definition truthy {A} (xs : list A) : bool :=
  match xs with [] => false | _ :: _ => true end.

Definition tab3_block (values : list Q) : M unit :=
  render tab3 (st_subheader [Lit "⚠️ Health Areas Needing Attention"]) ;;
  w <- get ;;
  (if truthy (attention_needed w)
   then for_each (attention_needed w)
          (fun msg => render tab3 (st_markdown msg))
   else render tab3 (st_success
          [Lit "✅ All entered values are within the healthy range."])) ;;
  w <- get ;;
  if truthy (attention_needed w)
  then
    render tab3 (st_markdown [Lit "### 💡 Suggested Next Steps"]) ;;
    tips_loop (zip categories values)
  else ret tt.

(** The text drawn by [create_pdf]; the five numbers are printed as the
    widgets returned them. *)
Definition report_text (i : Inputs) (values : list Q) (w : World)
  : option fstring :=
  match nth_error (prediction w) 0 with
  | Some p0 =>
      Some (([ Lit "
            Diabetes Prediction Report
            --------------------------
            Prediction: ";
               Str (if (p0 =? 1)%Z then "Diabetes" else "No Diabetes");
               Lit "
            Risk Probability: "; Fix1 (proba w);
               Lit "%
            Health Score: "; Int (health_score w);
               Lit "/100

            Patient Values:" ]
             ++ flat_map (fun '(name, val) =>
                  [Lit ("
            - " ++ name ++ ": ")%string; Num val])
                  (zip ["Glucose"; "Blood Pressure"; "Insulin"; "BMI"; "Age"]
                       values)
             ++ [ Lit "
            - Location: "; Str (location i); Lit "
            " ])%list)
  | None => None
  end.

Definition create_pdf (i : Inputs) (values : list Q) : M fstring :=
  w <- get ;;
  unwrap (report_text i values w).

(** The [else] branch: the inputs are complete. *)
Definition evaluate (m : Classifier) (i : Inputs) : M unit :=
  values <- unwrap (patient_values i) ;;
  let features := [values] in
  log (call_predict features) ;;
  modify (set_prediction (map (predict m) features)) ;;
  assign_proba m features ;;
  assign_health_score ;;
  tab1_block i ;;
  tab2_block values ;;
  tab3_block values ;;
  pdf_buffer <- create_pdf i values ;;
  render body (st_download_button "📥 Download Report (PDF)" pdf_buffer
                 "diabetes_report.pdf" "application/pdf").

(** [if st.sidebar.button("🔍 Predict Diabetes"): ...] *)
Definition prediction_logic (m : Classifier) (i : Inputs) : M unit :=
  if button i
  then
    if incomplete i
    then render body (st_warning
           [Lit "⚠️ Please enter all patient details (including location) before predicting."])
    else evaluate m i
  else ret tt.

(** ** The score on IEEE doubles *)

Module Binary64.

Import Floats.

(** [int(x)] on a double: truncation toward zero; [None] is the
    [ValueError] or [OverflowError] raised on NaN and on the
    infinities. *)
Definition int (x : float) : option Z :=
  match Prim2SF x with
  | S754_zero _ => Some 0
  | S754_finite s m e =>
      let magnitude :=
        match e with
        | Z0 => Zpos m
        | Zpos k => Z.shiftl (Zpos m) (Zpos k)
        | Zneg k => Z.shiftr (Zpos m) (Zpos k)
        end in
      Some (if s then - magnitude else magnitude)
  | S754_infinity _ | S754_nan => None
  end.

(** [proba = p1 * 100] followed by [health_score = int(100 - proba)],
    for a class-1 probability [p1]. *)
Definition health_score (p1 : float) : option Z :=
  int (100 - p1 * 100)%float.

Definition one_sixteenth : float := 0.0625%float.

End Binary64.

(** A script run starts from an empty page; the names of the block are
    whatever an earlier run left, or unbound. *)
Definition fresh : World := mkWorld [] 0%Q 0 [] [] [] [].

(** * Specification-side definitions and closed forms *)

(** ** What the specification says, in its own words *)

Module Spec.

(** [round(x)]: the nearest integer, a tie going to the even one. *)
Definition round (x : Q) : Z :=
  let f := Qfloor x in
  match (x - inject_Z f ?= 1 # 2)%Q with
  | Lt => f
  | Gt => f + 1
  | Eq => if Z.even f then f else f + 1
  end.

(** "health_score = 100 - round(percent)" *)
Definition health_score (percent : Q) : Z := 100 - round percent.

(** "An attribute is out of range if value < low or value > high." *)
Definition out_of_range (value low high : Q) : Prop :=
  (value < low \/ value > high)%Q.

Definition out_of_range_dec (value low high : Q) :
  {out_of_range value low high} + {~ out_of_range value low high}.
Proof.
  unfold out_of_range.
  destruct (Qlt_le_dec value low) as [H | H]; [left; tauto |].
  destruct (Qlt_le_dec high value) as [H' | H']; [left; tauto |].
  right. intros [K | K]; [apply (Qlt_not_le _ _ K H) | apply (Qlt_not_le _ _ K H')].
Defined.

(** "the fixed declaration order (Glucose, Blood Pressure, Insulin, BMI,
    Age)" *)
Definition attributes : list string :=
  ["Glucose"; "Blood Pressure"; "Insulin"; "BMI"; "Age"].

Definition flagged (row : string * Q) : bool :=
  match getitem healthy_ranges (fst row) with
  | Some (low, high) =>
      if out_of_range_dec (snd row) low high then true else false
  | None => false
  end.

(** "the ordered subset of attributes whose reading falls outside its
    HealthyRange" *)
Definition out_of_range_attributes (reading : list Q) : list string :=
  map fst (filter flagged (combine attributes reading)).

(** "every attribute within range" *)
Definition within_range (row : string * Q) : Prop :=
  exists low high,
    getitem healthy_ranges (fst row) = Some (low, high) /\
    (low <= snd row <= high)%Q.

(** "a recommendation string per out-of-range attribute drawn from a
    fixed lookup table" *)
Definition recommendations (reading : list Q) : list (option string) :=
  map (getitem tips) (out_of_range_attributes reading).

End Spec.

(** ** Closed forms

    What the two loops, the three tabs and a whole run compute, written
    without the state; the lemmas of the next part prove that the script
    computes exactly these. *)

(** The attribute of a row has a healthy range. *)
Definition known (row : string * Q) : Prop :=
  getitem healthy_ranges (fst row) <> None.

(** Red for a flagged row, green otherwise. *)
Definition bar_colour (row : string * Q) : string :=
  if Spec.flagged row then "#E74C3C" else "#27AE60".

(** The attention entry of an attribute:
    [f"- **{cat}** is outside the healthy range ({low}–{high})."] *)
Definition message (cat : string) : fstring :=
  match getitem healthy_ranges cat with
  | Some (low, high) =>
      [Lit "- **"; Str cat; Lit "** is outside the healthy range (";
       Num low; Lit "–"; Num high; Lit ")."]
  | None => []
  end.

(** The tip of an attribute as rendered: [f"- {tips[cat]}"]. *)
Definition tip_markdown (cat : string) : element :=
  match getitem tips cat with
  | Some tip => st_markdown [Lit "- "; Str tip]
  | None => st_markdown []
  end.

Definition tip_line (cat : string) : container * element :=
  (tab3, tip_markdown cat).

(** Tab 1 for a given label, probability and score. *)
Definition tab1_page (i : Inputs) (label : Z) (p : Q) (score : Z)
  : list (container * element) :=
  [ (tab1, st_subheader [Lit "🔎 Prediction Result"]);
    (tab1, if (label =? 1)%Z
           then st_error
                  [Lit "⚠️ The model predicts this person **may have diabetes**."]
           else st_success
                  [Lit "✅ The model predicts this person is **unlikely to have diabetes**."]);
    (tab1, st_metric "Diabetes Risk Probability" [Fix1 p; Lit "%"]);
    (tab1, st_metric "Health Score" [Int score; Lit "/100"]);
    (tab1, st_markdown [Lit "**📍 Location:** "; Str (location i)]) ].

(** [[healthy_targets[cat] for cat in categories]] *)
Definition target_values : list Q :=
  match comprehension (getitem healthy_targets) categories with
  | Some ts => ts
  | None => []
  end.

(** Tab 2: the bar chart. *)
Definition tab2_page (values : list Q) : list (container * element) :=
  [ (tab2, st_pyplot (mkFigure values
                        (map bar_colour (zip categories values))
                        target_values categories)) ].

(** The banner of tab 3 when nothing needs attention. *)
Definition all_healthy : container * element :=
  (tab3, st_success [Lit "✅ All entered values are within the healthy range."]).

(** Tab 3 for a given attention list; [cats] are the attributes the
    tips loop flags. *)
Definition tab3_page (attention : list fstring) (cats : list string)
  : list (container * element) :=
  ((tab3, st_subheader [Lit "⚠️ Health Areas Needing Attention"])
   :: (if truthy attention
       then map (fun msg => (tab3, st_markdown msg)) attention
       else [all_healthy])
   ++ (if truthy attention
       then (tab3, st_markdown [Lit "### 💡 Suggested Next Steps"])
            :: map tip_line cats
       else []))%list.

(** The number [proba] holds after the [try] statement. *)
Definition risk_percent (m : Classifier) (features : list (list Q)) : Q :=
  match try_proba m features with
  | Some p => p
  | None => 50%Q
  end.

(** The report text once [prediction[0]] is known to exist. *)
Definition pdf_text (i : Inputs) (values : list Q) (w : World) : fstring :=
  match report_text i values w with
  | Some text => text
  | None => []
  end.

(** What a run on complete inputs adds to the page. *)
Definition output (m : Classifier) (i : Inputs) (values : list Q)
  : list (container * element) :=
  let label := predict m values in
  let p := risk_percent m [values] in
  let score := int (100 - p)%Q in
  let attention := map message (Spec.out_of_range_attributes values) in
  (tab1_page i label p score
     ++ tab2_page values
     ++ tab3_page attention (Spec.out_of_range_attributes values)
     ++ [(body, st_download_button "📥 Download Report (PDF)"
                  (pdf_text i values (mkWorld [label] p score [] [] [] []))
                  "diabetes_report.pdf" "application/pdf")])%list.

(** The calls a run on complete inputs makes: [predict], then
    [predict_proba] when the classifier has it. *)
Definition classifier_calls (m : Classifier) (values : list Q) : list call :=
  call_predict [values]
  :: (if has_predict_proba m then [call_predict_proba [values]] else []).

(** The world in which a run on complete inputs ends. *)
Definition final (m : Classifier) (i : Inputs) (values : list Q) (w0 : World)
  : World :=
  let p := risk_percent m [values] in
  mkWorld [predict m values] p (int (100 - p)%Q)
    (map bar_colour (zip categories values))
    (map message (Spec.out_of_range_attributes values))
    (page w0 ++ output m i values)%list
    (calls w0 ++ classifier_calls m values)%list.

(** The warning of the incomplete branch. *)
Definition warning_shown : container * element :=
  (body, st_warning
     [Lit "⚠️ Please enter all patient details (including location) before predicting."]).

(** ** What one run put on the page *)

Definition container_eqb (c d : container) : bool :=
  match c, d with
  | sidebar, sidebar | tab1, tab1 | tab2, tab2 | tab3, tab3 | body, body => true
  | _, _ => false
  end.

(** The elements a run from [w0] to [w] rendered in container [c]. *)
Definition rendered (c : container) (w0 w : World) : list element :=
  map snd (filter (fun ce => container_eqb (fst ce) c)
             (skipn (List.length (page w0)) (page w))).

Definition suggested_next_steps : element :=
  st_markdown [Lit "### 💡 Suggested Next Steps"].

(** The elements of tab 3, as a function of the attention list and of
    the attributes the second loop flags. *)
Definition tab3_elements (attention : list fstring) (cats : list string)
  : list element :=
  (st_subheader [Lit "⚠️ Health Areas Needing Attention"]
   :: (if truthy attention
       then map st_markdown attention
       else [st_success [Lit "✅ All entered values are within the healthy range."]])
   ++ (if truthy attention
       then suggested_next_steps :: map tip_markdown cats
       else []))%list.

(** The elements of a page fragment that sit in container [c]. *)
Definition select (c : container) (pg : list (container * element))
  : list element :=
  map snd (filter (fun ce => container_eqb (fst ce) c) pg).

(** ** Sample classifiers and inputs *)

Module Sample.

(** A classifier that reports [p1] as the probability of class 1 for
    every row, and predicts class 1 exactly from one half on. *)
Definition reporting (p1 : Q) : Classifier :=
  mkClassifier
    (fun _ => if Qle_bool (1 # 2) p1 then 1 else 0)
    true
    (fun X => Some (map (fun _ => [(1 - p1)%Q; p1]) X)).

(** A classifier without [predict_proba]. *)
Definition labels_only : Classifier :=
  mkClassifier (fun _ => 0) false (fun _ => None).

Definition in_range : Inputs :=
  mkInputs (Some 110) (Some 80) (Some 85) (Some 22.5%Q) (Some 35)
           "Narowal, Pakistan" true.

Definition at_risk : Inputs :=
  mkInputs (Some 200) (Some 150) (Some 85) (Some 25.5%Q) (Some 35)
           "Narowal, Pakistan" true.

Definition on_the_bounds : Inputs :=
  mkInputs (Some 70) (Some 120) (Some 16) (Some 24.9%Q) (Some 50)
           "Narowal, Pakistan" true.

Definition no_insulin : Inputs :=
  mkInputs (Some 110) (Some 80) None (Some 22.5%Q) (Some 35)
           "Narowal, Pakistan" true.

(** A world as an earlier run on [at_risk] left it. *)
Definition stale : World :=
  match prediction_logic (reporting 0.83) at_risk fresh with
  | Some (_, w) => w
  | None => fresh
  end.

End Sample.

Definition is_warning (e : element) : bool :=
  match e with st_warning _ => true | _ => false end.

(** * The rest of the script *)

(** ** Start-up, widgets and footer *)

(** What [joblib.load(MODEL_FILENAME)] did: returned the model or raised
    [e]. *)
Inductive loaded :=
| model_loaded (m : Classifier)
| load_error (e : string).

(** The Streamlit calls of a whole run, in call order.  The two HTML
    texts (title, footer) are kept as constructors; [shown] is an
    element rendered by the loader or by the prediction logic. *)
Inductive block :=
| set_page_config (page_title page_icon layout : string)
| title_html
| sidebar_header (text : string)
| number_input (label : string) (min_value max_value step : Q)
               (placeholder : string)
| text_input (label placeholder : string)
| sidebar_button (label : string)
| shown (c : container) (e : element)
| footer_html.

(** The six widgets [user_input()] creates; each number widget starts
    with [value=None]. *)
Definition user_input : list block :=
  [ number_input "Glucose Level (mg/dL)" 0 300 1 "e.g., 110";
    number_input "Blood Pressure (mm Hg)" 0 200 1 "e.g., 80";
    number_input "Insulin Level (mu U/ml)" 0 900 1 "e.g., 85";
    number_input "BMI (kg/m²)" 0.0 70.0 0.1 "e.g., 25.5";
    number_input "Age (years)" 1 120 1 "e.g., 35";
    text_input "📍 Location (City, Country)" "e.g., Narowal, Pakistan" ].

(** The script from top to bottom.  [i] is what the widgets returned in
    this run.  After a failed load the script shows the error and
    [st.stop()] ends the run. *)
Definition app (l : loaded) (i : Inputs) (w0 : World)
  : option (list block * World) :=
  match l with
  | load_error e =>
      Some ([shown body (st_error [Lit "❌ Error loading model: "; Str e])], w0)
  | model_loaded m =>
      match prediction_logic m i w0 with
      | Some (_, w) =>
          Some (([ set_page_config "Diabetes Prediction App" "🩺" "centered";
                   title_html;
                   sidebar_header "📝 Enter Patient Details" ]
                 ++ user_input
                 ++ [sidebar_button "🔍 Predict Diabetes"]
                 ++ map (fun ce => shown (fst ce) (snd ce))
                      (skipn (List.length (page w0)) (page w))
                 ++ [shown body (st_markdown [Lit "---"]); footer_html])%list,
                w)
      | None => None
      end
  end.

(** ** Reading a report back *)

(** The numbers printed in an f-string, in order. *)
Definition nums (text : fstring) : list Q :=
  flat_map (fun p => match p with Num q => [q] | _ => [] end) text.

(** The calls a run from [w0] to [w] made into the classifier. *)
Definition called (w0 w : World) : list call :=
  skipn (List.length (calls w0)) (calls w).

(** ** Further sample classifiers *)

Module Cases.

(** A one-class model: [predict_proba] has a single column. *)
Definition one_class : Classifier :=
  mkClassifier (fun _ => 0) true (fun X => Some (map (fun _ => [1%Q]) X)).

(** A model whose label disagrees with its probability. *)
Definition contrary : Classifier :=
  mkClassifier (fun _ => 1) true
    (fun X => Some (map (fun _ => [0.88; 0.12]%Q) X)).

Definition elsewhere : Inputs :=
  mkInputs (Some 200) (Some 150) (Some 85) (Some 25.5%Q) (Some 35)
           "Lahore" true.



End Cases.

(** * Proofs *)

(** ** Arithmetic of the Python primitives *)

Lemma lt_spec (a b : Q) : lt a b = true <-> (a < b)%Q.
Proof.
  unfold lt. rewrite negb_true_iff, <- not_true_iff_false, Qle_bool_iff.
  split; [apply Qnot_le_lt | apply Qlt_not_le].
Qed.

Lemma outside_spec (val low high : Q) :
  outside val low high = true <-> (val < low \/ val > high)%Q.
Proof.
  unfold outside, gt. rewrite orb_true_iff, !lt_spec. tauto.
Qed.

Lemma outside_false (val low high : Q) :
  outside val low high = false <-> (low <= val <= high)%Q.
Proof.
  rewrite <- not_true_iff_false, outside_spec. split.
  - intros H. split; apply Qnot_lt_le; tauto.
  - intros [H1 H2] [H | H]; [apply (Qlt_not_le _ _ H H1) | apply (Qlt_not_le _ _ H H2)].
Qed.






Lemma int_nonneg (x : Q) : (0 <= x)%Q -> int x = Qfloor x.
Proof.
  destruct x as [n d]. unfold Qle, int, Qfloor. simpl. intros H.
  apply Z.quot_div_nonneg; lia.
Qed.

(** ** The two loops *)

Lemma flagged_outside (cat : string) (val low high : Q) :
  getitem healthy_ranges cat = Some (low, high) ->
  Spec.flagged (cat, val) = outside val low high.
Proof.
  intros E. unfold Spec.flagged. cbn [fst snd]. rewrite E.
  destruct (Spec.out_of_range_dec val low high) as [H | H].
  - symmetry. apply outside_spec. exact H.
  - symmetry. apply not_true_iff_false. rewrite outside_spec. exact H.
Qed.

Lemma chart_loop_spec (rows : list (string * Q)) :
  Forall known rows ->
  forall w,
    chart_loop rows w =
    Some (tt, set_attention_needed
                (attention_needed w
                   ++ map message (map fst (filter Spec.flagged rows)))%list
                (set_colors (colors w ++ map bar_colour rows)%list w)).
Proof.
  induction 1 as [| [cat val] rows Hk _ IH]; intros w.
  - simpl. unfold ret. rewrite !app_nil_r. destruct w; reflexivity.
  - unfold known in Hk. cbn [fst] in Hk.
    destruct (getitem healthy_ranges cat) as [[low high] |] eqn:E;
      [clear Hk | contradiction].
    unfold chart_loop in *. cbn [for_each].
    unfold bind at 1. unfold bind at 1. unfold unwrap. rewrite E.
    unfold ret at 1. cbn [filter map].
    unfold bar_colour at 1. rewrite (flagged_outside _ _ _ _ E).
    destruct (outside val low high).
    + unfold bind at 1. unfold modify at 1 2. rewrite IH.
      destruct w; cbn. unfold message at 2. rewrite E.
      rewrite <- !app_assoc. reflexivity.
    + unfold modify at 1. rewrite IH.
      destruct w; cbn. rewrite <- !app_assoc. reflexivity.
Qed.

Lemma tips_loop_spec (rows : list (string * Q)) :
  Forall known rows ->
  Forall (fun row => getitem tips (fst row) <> None) rows ->
  forall w,
    tips_loop rows w =
    Some (tt, set_page
                (page w ++ map tip_line (map fst (filter Spec.flagged rows)))%list
                w).
Proof.
  induction 1 as [| [cat val] rows Hk _ IH]; intros Ht w.
  - simpl. unfold ret. rewrite app_nil_r. destruct w; reflexivity.
  - inversion Ht as [| ? ? Hc Ht']; subst. specialize (IH Ht').
    unfold known in Hk. cbn [fst] in Hk, Hc.
    destruct (getitem healthy_ranges cat) as [[low high] |] eqn:E;
      [clear Hk | contradiction].
    destruct (getitem tips cat) as [tip |] eqn:T; [clear Hc | contradiction].
    unfold tips_loop in *. cbn [for_each].
    unfold bind at 1. unfold bind at 1. unfold unwrap at 1. rewrite E.
    unfold ret at 1. cbn [filter map].
    rewrite (flagged_outside _ _ _ _ E).
    destruct (outside val low high).
    + unfold bind at 1. unfold unwrap. rewrite T. unfold ret at 1.
      unfold render, modify at 1. rewrite IH.
      destruct w; cbn. unfold tip_line at 2, tip_markdown. rewrite T.
      rewrite <- !app_assoc. reflexivity.
    + unfold ret at 1. apply IH.
Qed.

Lemma render_all (c : container) (mk : fstring -> element) (msgs : list fstring) :
  forall w,
    for_each msgs (fun msg => render c (mk msg)) w =
    Some (tt, set_page (page w ++ map (fun msg => (c, mk msg)) msgs)%list w).
Proof.
  induction msgs as [| msg msgs IH]; intros w.
  - simpl. unfold ret. rewrite app_nil_r. destruct w; reflexivity.
  - cbn [for_each]. unfold bind, render at 1, modify at 1. rewrite IH.
    destruct w; cbn. rewrite <- !app_assoc. reflexivity.
Qed.

Lemma rows_known (values : list Q) :
  Forall known (zip categories values) /\
  Forall (fun row => getitem tips (fst row) <> None) (zip categories values).
Proof.
  assert (H : forall cat, In cat categories ->
            getitem healthy_ranges cat <> None /\ getitem tips cat <> None).
  { intros cat Hin. simpl in Hin.
    repeat (destruct Hin as [<- | Hin]; [split; discriminate |]).
    contradiction. }
  split; apply Forall_forall; intros [cat val] Hin;
    apply in_combine_l in Hin; apply H in Hin; tauto.
Qed.

(** ** The three tabs and the whole run *)

(** Setters and projections are reduced innermost first: each setter
    copies its argument once per field. *)
Ltac world_steps :=
  cbv [set_page set_attention_needed set_colors set_health_score set_proba
       set_calls set_prediction
       page prediction proba health_score colors attention_needed calls].

Lemma tab1_block_spec (i : Inputs) (w : World) (label : Z) :
  nth_error (prediction w) 0 = Some label ->
  tab1_block i w =
  Some (tt, set_page (page w ++ tab1_page i label (proba w) (health_score w))%list w).
Proof.
  intros E. unfold tab1_block, bind, render, modify, get, unwrap.
  cbn [page set_page prediction proba health_score].
  destruct w as [pr p hs cs att pg cl]. cbn in E |- *. rewrite E.
  unfold ret, tab1_page.
  destruct (label =? 1)%Z; cbn; rewrite <- !app_assoc; reflexivity.
Qed.

Lemma tab2_block_spec (values : list Q) (w : World) :
  tab2_block values w =
  Some (tt, set_page (page w ++ tab2_page values)%list
              (set_attention_needed
                 (map message (Spec.out_of_range_attributes values))
                 (set_colors (map bar_colour (zip categories values)) w))).
Proof.
  unfold tab2_block.
  unfold bind at 1.
  assert (T : comprehension (getitem healthy_targets) categories
              = Some target_values) by reflexivity.
  rewrite T. unfold unwrap, ret at 1.
  unfold bind at 1. unfold modify at 1.
  unfold bind at 1. unfold modify at 1.
  unfold bind at 1.
  rewrite (chart_loop_spec _ (proj1 (rows_known values))).
  unfold bind, get, render, modify.
  destruct w as [pr p hs cs att pg cl]. cbn. reflexivity.
Qed.

Lemma tab3_block_spec (values : list Q) (w : World) :
  tab3_block values w =
  Some (tt, set_page
              (page w ++ tab3_page (attention_needed w)
                           (Spec.out_of_range_attributes values))%list w).
Proof.
  unfold tab3_block.
  destruct (rows_known values) as [Hk Ht].
  unfold bind at 1. unfold render at 1, modify at 1.
  unfold bind at 1. unfold get at 1.
  unfold bind at 1. cbn [attention_needed set_page].
  unfold tab3_page.
  destruct (truthy (attention_needed w)) eqn:Ha.
  - rewrite render_all.
    unfold bind at 1. unfold get at 1. cbn [attention_needed set_page]. rewrite Ha.
    unfold bind at 1. unfold render at 1, modify at 1.
    rewrite (tips_loop_spec _ Hk Ht).
    destruct w as [pr p hs cs att pg cl]. cbn. rewrite <- !app_assoc. reflexivity.
  - unfold render at 1, modify at 1.
    unfold bind at 1. unfold get at 1. cbn [attention_needed set_page]. rewrite Ha.
    destruct w as [pr p hs cs att pg cl]. cbn. rewrite <- !app_assoc. reflexivity.
Qed.

Lemma evaluate_spec (m : Classifier) (i : Inputs) (values : list Q) (w0 : World) :
  patient_values i = Some values ->
  evaluate m i w0 = Some (tt, final m i values w0).
Proof.
  intros Hv. unfold evaluate.
  unfold bind at 1. rewrite Hv. unfold unwrap, ret at 1.
  unfold bind at 1. unfold log at 1, modify at 1.
  unfold bind at 1. unfold modify at 1.
  unfold bind at 1.
  assert (Hp : forall w, assign_proba m [values] w
            = Some (tt, set_proba (risk_percent m [values])
                          (set_calls
                             (calls w ++
                              (if has_predict_proba m
                               then [call_predict_proba [values]] else []))%list
                             w))).
  { intros w. unfold assign_proba, bind, log, modify, ret, risk_percent.
    destruct (has_predict_proba m), (try_proba m [values]);
      destruct w; world_steps; rewrite ?app_nil_r; reflexivity. }
  rewrite Hp.
  unfold bind at 1. unfold assign_health_score at 1, modify at 1.
  unfold bind at 1. erewrite tab1_block_spec by reflexivity.
  unfold bind at 1. rewrite tab2_block_spec.
  unfold bind at 1. rewrite tab3_block_spec.
  unfold bind at 1. unfold create_pdf, bind, get, unwrap.
  destruct w0 as [pr p hs cs att pg cl].
  unfold render, modify, ret, final, output, pdf_text, report_text.
  world_steps. cbn [map nth_error].
  rewrite <- !app_assoc. reflexivity.
Qed.

(** ** The completeness check *)

Lemma incomplete_true_iff (i : Inputs) :
  incomplete i = true <->
  glucose i = None \/ blood_pressure i = None \/ insulin i = None \/
  bmi i = None \/ age i = None \/ location i = "".
Proof.
  unfold incomplete, fields, none_in. cbn [existsb].
  rewrite !orb_true_iff, String.eqb_eq.
  destruct (glucose i), (blood_pressure i), (insulin i), (bmi i), (age i);
    cbn [option_map]; intuition congruence.
Qed.

Lemma complete_values (i : Inputs) :
  incomplete i = false ->
  exists g bp ins b a,
    glucose i = Some g /\ blood_pressure i = Some bp /\ insulin i = Some ins /\
    bmi i = Some b /\ age i = Some a /\ location i <> "" /\
    patient_values i =
    Some [inject_Z g; inject_Z bp; inject_Z ins; b; inject_Z a].
Proof.
  intros H. apply not_true_iff_false in H. rewrite incomplete_true_iff in H.
  unfold patient_values, fields.
  destruct (glucose i) as [g |]; [| tauto].
  destruct (blood_pressure i) as [bp |]; [| tauto].
  destruct (insulin i) as [ins |]; [| tauto].
  destruct (bmi i) as [b |]; [| tauto].
  destruct (age i) as [a |]; [| tauto].
  exists g, bp, ins, b, a. repeat split; try reflexivity. tauto.
Qed.

Lemma run_incomplete (m : Classifier) (i : Inputs) (w0 : World) :
  button i = true -> incomplete i = true ->
  prediction_logic m i w0 =
  Some (tt, set_page (page w0 ++ [warning_shown])%list w0).
Proof.
  intros Hb Hi. unfold prediction_logic. rewrite Hb, Hi. reflexivity.
Qed.

Lemma run_complete (m : Classifier) (i : Inputs) (w0 : World) :
  button i = true -> incomplete i = false ->
  exists values,
    patient_values i = Some values /\
    prediction_logic m i w0 = Some (tt, final m i values w0).
Proof.
  intros Hb Hi. unfold prediction_logic. rewrite Hb, Hi.
  destruct (complete_values i Hi) as (g & bp & ins & b & a & _ & _ & _ & _ & _ & _ & Hv).
  eexists. split; [exact Hv |]. apply evaluate_spec. exact Hv.
Qed.

Lemma fields_complete (i : Inputs) (g bp ins : Z) (b : Q) (a : Z) :
  glucose i = Some g -> blood_pressure i = Some bp -> insulin i = Some ins ->
  bmi i = Some b -> age i = Some a -> location i <> "" ->
  incomplete i = false /\
  patient_values i = Some [inject_Z g; inject_Z bp; inject_Z ins; b; inject_Z a].
Proof.
  intros Hg Hbp Hins Hbmi Hage Hloc. split.
  - apply not_true_iff_false. rewrite incomplete_true_iff.
    intros [H | [H | [H | [H | [H | H]]]]]; congruence.
  - unfold patient_values, fields. rewrite Hg, Hbp, Hins, Hbmi, Hage.
    reflexivity.
Qed.

Lemma run_on_fields (m : Classifier) (i : Inputs) (w0 : World)
      (g bp ins : Z) (b : Q) (a : Z) :
  button i = true ->
  glucose i = Some g -> blood_pressure i = Some bp -> insulin i = Some ins ->
  bmi i = Some b -> age i = Some a -> location i <> "" ->
  prediction_logic m i w0 =
  Some (tt, final m i [inject_Z g; inject_Z bp; inject_Z ins; b; inject_Z a] w0).
Proof.
  intros Hb Hg Hbp Hins Hbmi Hage Hloc.
  destruct (fields_complete i g bp ins b a Hg Hbp Hins Hbmi Hage Hloc)
    as [Hi Hv].
  unfold prediction_logic. rewrite Hb, Hi. apply evaluate_spec. exact Hv.
Qed.

(** ** Selecting a container *)

Lemma skipn_app_exact {A} (xs ys : list A) :
  skipn (List.length xs) (xs ++ ys)%list = ys.
Proof. induction xs as [| x xs IH]; [reflexivity | exact IH]. Qed.

Lemma select_tagged {A} (c d : container) (f : A -> element) (xs : list A) :
  map snd (filter (fun ce => container_eqb (fst ce) c)
             (map (fun x => (d, f x)) xs)) =
  if container_eqb d c then map f xs else [].
Proof.
  induction xs as [| x xs IH]; cbn [map filter fst].
  - destruct (container_eqb d c); reflexivity.
  - destruct (container_eqb d c); cbn [map snd]; [f_equal |]; exact IH.
Qed.

Lemma select_app (c : container) (xs ys : list (container * element)) :
  map snd (filter (fun ce => container_eqb (fst ce) c) (xs ++ ys)) =
  (map snd (filter (fun ce => container_eqb (fst ce) c) xs)
   ++ map snd (filter (fun ce => container_eqb (fst ce) c) ys))%list.
Proof. rewrite filter_app, map_app. reflexivity. Qed.

Lemma select_tab3_page (c : container) (attention : list fstring)
      (cats : list string) :
  map snd (filter (fun ce => container_eqb (fst ce) c)
             (tab3_page attention cats)) =
  if container_eqb tab3 c then tab3_elements attention cats else [].
Proof.
  unfold tab3_page, tab3_elements, tip_line, all_healthy, suggested_next_steps.
  destruct (truthy attention);
    cbn [filter fst]; destruct (container_eqb tab3 c) eqn:E;
    cbn [map snd]; rewrite select_app; cbn [filter fst]; rewrite ?E;
    rewrite ?select_tagged, ?E; cbn [map snd filter app fst]; rewrite ?E;
    cbn [map snd]; rewrite ?select_tagged, ?E;
    reflexivity.
Qed.

Lemma rendered_final (m : Classifier) (i : Inputs) (values : list Q)
      (w0 : World) (c : container) :
  rendered c w0 (final m i values w0) = select c (output m i values).
Proof.
  unfold rendered, final, select. cbn [page]. rewrite skipn_app_exact.
  reflexivity.
Qed.

Lemma select_output (m : Classifier) (i : Inputs) (values : list Q) :
  let p := risk_percent m [values] in
  let attention := map message (Spec.out_of_range_attributes values) in
  select sidebar (output m i values) = [] /\
  select tab1 (output m i values) =
    map snd (tab1_page i (predict m values) p (int (100 - p)%Q)) /\
  select tab2 (output m i values) = map snd (tab2_page values) /\
  select tab3 (output m i values) =
    tab3_elements attention (Spec.out_of_range_attributes values) /\
  exists pdf,
    select body (output m i values) =
    [st_download_button "📥 Download Report (PDF)" pdf
       "diabetes_report.pdf" "application/pdf"].
Proof.
  intros p attention. subst p attention. unfold output, select.
  repeat split; [| | | | eexists];
    rewrite !select_app, select_tab3_page;
    cbn [container_eqb]; unfold tab1_page, tab2_page;
    cbn [filter map fst snd container_eqb app]; rewrite ?app_nil_r;
    reflexivity.
Qed.

(** ** Rounding against truncation *)

Lemma floor_lt_ceiling (x : Q) :
  (inject_Z (Qfloor x) < x)%Q -> Qfloor x + 1 <= Qceiling x.
Proof.
  intros H. pose proof (Qle_ceiling x) as Hc.
  pose proof (Qlt_le_trans _ _ _ H Hc) as Hlt.
  rewrite <- Zlt_Qlt in Hlt. lia.
Qed.

Lemma ceiling_le_floor_succ (x : Q) : Qceiling x <= Qfloor x + 1.
Proof.
  pose proof (Qceiling_lt x) as H1. pose proof (Qlt_floor x) as H2.
  pose proof (Qlt_trans _ _ _ H1 H2) as H. rewrite <- Zlt_Qlt in H. lia.
Qed.

Lemma round_between (x : Q) : Qceiling x - 1 <= Spec.round x <= Qceiling x.
Proof.
  pose proof (ceiling_le_floor_succ x) as Hc.
  pose proof (Qle_floor_ceiling x) as Hf. rewrite <- Zle_Qle in Hf.
  assert (Hpos : (0 < x - inject_Z (Qfloor x))%Q -> Qfloor x + 1 <= Qceiling x).
  { intros H. apply floor_lt_ceiling.
    apply (Qplus_lt_l _ _ (- inject_Z (Qfloor x))).
    rewrite Qplus_opp_r. exact H. }
  unfold Spec.round. cbv zeta.
  destruct (x - inject_Z (Qfloor x) ?= 1 # 2)%Q eqn:E.
  - apply Qeq_alt in E.
    assert (Hp : (0 < x - inject_Z (Qfloor x))%Q) by (rewrite E; reflexivity).
    destruct (Z.even (Qfloor x)); specialize (Hpos Hp); lia.
  - lia.
  - apply Qgt_alt in E.
    assert (Hp : (0 < x - inject_Z (Qfloor x))%Q).
    { eapply Qlt_trans; [| exact E]. reflexivity. }
    specialize (Hpos Hp). lia.
Qed.

(** ** The score under a rounding subtraction

    The script subtracts in binary64.  [rnd] stands for the rounding of
    that operation: it is monotone, it keeps the integers a double
    holds exactly, and on arguments up to 128 in size it moves a number
    by at most half a unit in the last place, 2^-47.  Exact arithmetic
    is the instance where [rnd] is the identity. *)

Lemma round_down (p : Q) :
  (p - inject_Z (Qfloor p) < 1 # 2)%Q -> Spec.round p = Qfloor p.
Proof.
  intros H. unfold Spec.round. cbv zeta.
  destruct (p - inject_Z (Qfloor p) ?= 1 # 2)%Q eqn:E; [| reflexivity |].
  - apply Qeq_alt in E. rewrite E in H. discriminate H.
  - apply Qgt_alt in E. exfalso. apply (Qlt_irrefl (1 # 2)).
    exact (Qlt_trans _ _ _ E H).
Qed.

Lemma round_at_least_floor (p : Q) : Qfloor p <= Spec.round p.
Proof.
  unfold Spec.round. cbv zeta.
  destruct (p - inject_Z (Qfloor p) ?= 1 # 2)%Q;
    [destruct (Z.even (Qfloor p)) | |]; lia.
Qed.

Section Rounding.

Variable rnd : Q -> Q.
Hypothesis rnd_monotone : forall x y, (x <= y)%Q -> (rnd x <= rnd y)%Q.
Hypothesis rnd_integer :
  forall z : Z, Z.abs z <= 2 ^ 53 -> (rnd (inject_Z z) == inject_Z z)%Q.
Hypothesis rnd_near :
  forall x, (-128 <= x <= 128)%Q ->
            (x - (1 # 2 ^ 47) <= rnd x <= x + (1 # 2 ^ 47))%Q.

Lemma rnd_between (x : Q) (lo hi : Z) :
  Z.abs lo <= 2 ^ 53 -> Z.abs hi <= 2 ^ 53 ->
  (inject_Z lo <= x <= inject_Z hi)%Q ->
  (inject_Z lo <= rnd x <= inject_Z hi)%Q.
Proof.
  intros Hlo Hhi [H1 H2]. split.
  - rewrite <- (rnd_integer lo Hlo). apply rnd_monotone. exact H1.
  - rewrite <- (rnd_integer hi Hhi). apply rnd_monotone. exact H2.
Qed.

(** For a percent in [0,100] the truncated, rounded difference is an
    integer in 0..100, adds up with the percent to a number in
    (99, 100 + 2^-46], and is 100 - round(percent) or one less. *)
Lemma score_with_rounding (p : Q) :
  (0 <= p <= 100)%Q ->
  0 <= int (rnd (100 - p)) <= 100 /\
  (99 < inject_Z (int (rnd (100 - p))) + p <= 100 + (1 # 2 ^ 46))%Q /\
  Spec.health_score p - 1 <= int (rnd (100 - p)) <= Spec.health_score p.
Proof.
  intros [H0 H100].
  set (r := rnd (100 - p)).
  pose proof (Qfloor_le p) as Hf. pose proof (Qlt_floor p) as Hf'.
  pose proof (Qle_ceiling p) as Hc. pose proof (Qceiling_lt p) as Hc'.
  assert (Hf0 : 0 <= Qfloor p).
  { change 0 with (Qfloor 0). apply Qfloor_resp_le, H0. }
  assert (Hc100 : Qceiling p <= 100).
  { change 100 with (Qceiling 100). apply Qceiling_resp_le, H100. }
  pose proof (Qle_floor_ceiling p) as Hfc. rewrite <- Zle_Qle in Hfc.
  assert (Hr : (inject_Z (100 - Qceiling p) <= r <= inject_Z (100 - Qfloor p))%Q).
  { apply rnd_between; try lia.
    unfold Z.sub. rewrite !inject_Z_plus, !inject_Z_opp.
    change (inject_Z 100) with 100%Q. split; lra. }
  assert (Hr0 : (0 <= r)%Q).
  { apply Qle_trans with (inject_Z (100 - Qceiling p)); [| apply Hr].
    change 0%Q with (inject_Z 0). rewrite <- Zle_Qle. lia. }
  assert (Hint : int r = Qfloor r) by (apply int_nonneg; exact Hr0).
  assert (Hlow : 100 - Qceiling p <= int r).
  { rewrite Hint. rewrite <- (Qfloor_Z (100 - Qceiling p)).
    apply Qfloor_resp_le, Hr. }
  assert (Hhigh : int r <= 100 - Qfloor p).
  { rewrite Hint. rewrite <- (Qfloor_Z (100 - Qfloor p)).
    apply Qfloor_resp_le, Hr. }
  assert (Hnear : (r <= 100 - p + (1 # 2 ^ 47))%Q).
  { apply rnd_near. split; lra. }
  assert (Hle : (inject_Z (int r) <= r)%Q) by (rewrite Hint; apply Qfloor_le).
  split; [lia |]. split.
  - split.
    + apply Qlt_le_trans with (inject_Z (100 - Qceiling p) + p)%Q.
      * unfold Z.sub in *. rewrite !inject_Z_plus, !inject_Z_opp in *.
        change (inject_Z 100) with 100%Q. change (inject_Z 1) with 1%Q in Hc'.
        lra.
      * apply Qplus_le_l. rewrite <- Zle_Qle. exact Hlow.
    + assert ((1 # 2 ^ 47) <= (1 # 2 ^ 46))%Q by discriminate. lra.
  - unfold Spec.health_score.
    pose proof (round_between p) as Hb.
    pose proof (round_at_least_floor p) as Hrf.
    split; [lia |].
    destruct (Qlt_le_dec (p - inject_Z (Qfloor p)) (1 # 2)) as [Hs | Hs].
    + rewrite (round_down p Hs). exact Hhigh.
    + (* the fraction is at least one half: the difference is not
         rounded up to the next integer *)
      assert (Hlt : int r < 100 - Qfloor p).
      { apply Z.lt_nge. intros Hge.
        assert (Hr' : (inject_Z (100 - Qfloor p) <= r)%Q).
        { eapply Qle_trans; [| exact Hle]. rewrite <- Zle_Qle. exact Hge. }
        unfold Z.sub in Hr'. rewrite inject_Z_plus, inject_Z_opp in Hr'.
        change (inject_Z 100) with 100%Q in Hr'.
        assert ((1 # 2 ^ 47) < (1 # 2))%Q by reflexivity. lra. }
      assert (Hcf : Qceiling p <= Qfloor p + 1) by apply ceiling_le_floor_succ.
      lia.
Qed.


End Rounding.

(** Exact arithmetic is an instance. *)
Lemma exact_is_a_rounding :
  (forall x y, (x <= y)%Q -> ((fun x => x) x <= (fun x => x) y)%Q) /\
  (forall z : Z, Z.abs z <= 2 ^ 53 ->
                 ((fun x => x) (inject_Z z) == inject_Z z)%Q) /\
  (forall x, (-128 <= x <= 128)%Q ->
             (x - (1 # 2 ^ 47) <= (fun x => x) x <= x + (1 # 2 ^ 47))%Q).
Proof.
  split; [intros x y H; exact H |]. split; [intros z _; reflexivity |].
  intros x _. assert (0 < (1 # 2 ^ 47))%Q by reflexivity. split; lra.
Qed.

(** ** The health score *)

Lemma run_scores (m : Classifier) (i : Inputs) (w0 : World) :
  button i = true -> incomplete i = false ->
  exists values w,
    patient_values i = Some values /\
    prediction_logic m i w0 = Some (tt, w) /\
    proba w = risk_percent m [values] /\
    health_score w = int (100 - proba w)%Q /\
    rendered tab1 w0 w =
      map snd (tab1_page i (predict m values) (proba w) (health_score w)).
Proof.
  intros Hb Hi. destruct (run_complete m i w0 Hb Hi) as (values & Hv & Hrun).
  exists values, (final m i values w0).
  repeat split; try assumption; try reflexivity.
  rewrite rendered_final. apply select_output.
Qed.

(** C1, as the specification states it, fails: for a class-1 probability
    of 0.0625 the percent is 6.25, the script shows a health score of
    93, and 100 - round(6.25) is 94.  All numbers involved are exact in
    binary64, where the score is 93 as well. *)
Lemma health_score_is_not_rounded :
  exists w,
    prediction_logic (Sample.reporting 0.0625) Sample.in_range fresh
      = Some (tt, w) /\
    (proba w == 6.25)%Q /\ (0 <= proba w <= 100)%Q /\
    health_score w = 93 /\
    Spec.health_score (proba w) = 94 /\
    health_score w <> Spec.health_score (proba w) /\
    Binary64.health_score Binary64.one_sixteenth = Some 93.
Proof.
  eexists. split; [vm_compute; reflexivity |].
  cbv [proba health_score].
  repeat split; try (vm_compute; congruence).
Qed.

(** C1, amended: for every run on complete inputs whose class-1
    probability in percent lies in [0,100], the health score is the
    difference 100 - percent truncated toward zero, not 100 minus the
    rounded percent: it is an integer between 0 and 100, health score
    plus percent lies in (99, 100 + 2^-46], the 2^-46 being the room the
    binary64 subtraction needs, and the score is 100 - round(percent)
    or one less.  The statement is the instance of
    [score_with_rounding] for exact arithmetic. *)
Theorem health_score_truncates (m : Classifier) (i : Inputs) (w0 : World) :
  button i = true -> incomplete i = false ->
  (forall values p,
     patient_values i = Some values -> try_proba m [values] = Some p ->
     (0 <= p <= 100)%Q) ->
  exists w,
    prediction_logic m i w0 = Some (tt, w) /\
    (0 <= proba w <= 100)%Q /\
    0 <= health_score w <= 100 /\
    (99 < inject_Z (health_score w) + proba w <= 100 + (1 # 2 ^ 46))%Q /\
    Spec.health_score (proba w) - 1 <= health_score w
      <= Spec.health_score (proba w).
Proof.
  intros Hb Hi Hp.
  destruct (run_scores m i w0 Hb Hi) as (values & w & Hv & Hrun & Hpr & Hs & _).
  exists w. split; [exact Hrun |].
  assert (Hr : (0 <= proba w <= 100)%Q).
  { rewrite Hpr. unfold risk_percent.
    destruct (try_proba m [values]) as [p |] eqn:E.
    - exact (Hp values p Hv E).
    - split; discriminate. }
  split; [exact Hr |]. rewrite Hs.
  destruct exact_is_a_rounding as (Hmono & Hint & Hnear).
  exact (score_with_rounding (fun x => x) Hmono Hint Hnear (proba w) Hr).
Qed.

Lemma health_score_truncates_witness :
  button Sample.in_range = true /\
  incomplete Sample.in_range = false /\
  exists w,
    prediction_logic (Sample.reporting 0.0625) Sample.in_range fresh
      = Some (tt, w) /\
    (0 <= proba w <= 100)%Q /\
    0 <= health_score w <= 100 /\
    (99 < inject_Z (health_score w) + proba w <= 100 + (1 # 2 ^ 46))%Q /\
    Spec.health_score (proba w) - 1 <= health_score w
      <= Spec.health_score (proba w).
Proof.
  split; [reflexivity |]. split; [reflexivity |].
  apply (health_score_truncates (Sample.reporting 0.0625) Sample.in_range fresh);
    [reflexivity | reflexivity |].
  intros values p Hv Hp. vm_compute in Hv. injection Hv as <-.
  vm_compute in Hp. injection Hp as <-. split; discriminate.
Defined.




(** C3: when [predict_proba] is absent or raises, a run on complete
    inputs sets the probability to 50 percent and the health score to
    exactly 50, and shows that score. *)
Theorem missing_predict_proba_scores_50
        (m : Classifier) (i : Inputs) (w0 : World) :
  button i = true -> incomplete i = false ->
  (forall values,
     patient_values i = Some values ->
     has_predict_proba m = false \/ predict_proba m [values] = None) ->
  exists w,
    prediction_logic m i w0 = Some (tt, w) /\
    proba w = 50%Q /\
    health_score w = 50 /\
    In (st_metric "Health Score" [Int 50; Lit "/100"]) (rendered tab1 w0 w).
Proof.
  intros Hb Hi Hnone.
  destruct (run_scores m i w0 Hb Hi) as (values & w & Hv & Hrun & Hpr & Hs & Ht).
  assert (Hp : proba w = 50%Q).
  { rewrite Hpr. unfold risk_percent, try_proba.
    destruct (Hnone values Hv) as [-> | ->];
      [| destruct (has_predict_proba m)]; reflexivity. }
  assert (Hh : health_score w = 50) by (rewrite Hs, Hp; reflexivity).
  exists w. repeat split; try assumption.
  rewrite Ht, Hh. unfold tab1_page. cbn [map snd]. simpl. tauto.
Qed.

Lemma missing_predict_proba_scores_50_witness :
  button Sample.at_risk = true /\
  incomplete Sample.at_risk = false /\
  (forall values,
     patient_values Sample.at_risk = Some values ->
     has_predict_proba Sample.labels_only = false \/
     predict_proba Sample.labels_only [values] = None) /\
  exists w,
    prediction_logic Sample.labels_only Sample.at_risk fresh = Some (tt, w) /\
    proba w = 50%Q /\
    health_score w = 50 /\
    In (st_metric "Health Score" [Int 50; Lit "/100"]) (rendered tab1 fresh w).
Proof.
  split; [reflexivity |]. split; [reflexivity |].
  split; [intros values _; left; reflexivity |].
  apply (missing_predict_proba_scores_50 Sample.labels_only Sample.at_risk fresh);
    [reflexivity | reflexivity | intros values _; left; reflexivity].
Defined.

(** ** The range test *)

Lemma ranges_ordered (cat : string) (low high : Q) :
  getitem healthy_ranges cat = Some (low, high) -> (low <= high)%Q.
Proof.
  unfold healthy_ranges. cbn [getitem].
  repeat (destruct (String.eqb _ cat);
          [intros [= <- <-]; discriminate |]).
  discriminate.
Qed.

Lemma ranges_keys (cat : string) :
  getitem healthy_ranges cat <> None <-> In cat categories.
Proof.
  unfold categories, keys, healthy_ranges. cbn [getitem map fst In].
  split.
  - repeat (destruct (String.eqb _ cat) eqn:E;
            [apply String.eqb_eq in E; tauto | clear E]).
    intros H. exfalso. apply H. reflexivity.
  - intros H.
    repeat (destruct H as [<- | H]; [discriminate |]). contradiction.
Qed.

Lemma message_inj (cat cat' : string) :
  In cat categories -> message cat = message cat' -> cat = cat'.
Proof.
  intros Hin. apply ranges_keys in Hin. unfold message.
  destruct (getitem healthy_ranges cat) as [[low high] |]; [| contradiction].
  destruct (getitem healthy_ranges cat') as [[low' high'] |]; congruence.
Qed.

Lemma categories_nodup : NoDup categories.
Proof.
  unfold categories, keys, healthy_ranges. cbn [map fst].
  repeat (constructor; [cbn [In]; intros H;
                        repeat (destruct H as [H | H]; [discriminate |]);
                        exact H |]).
  constructor.
Qed.

Lemma zip_functional {A B} (xs : list A) (ys : list B) (a : A) (b b' : B) :
  NoDup xs -> In (a, b) (zip xs ys) -> In (a, b') (zip xs ys) -> b = b'.
Proof.
  unfold zip. intros Hnd. revert ys.
  induction Hnd as [| x xs Hx _ IH]; intros [| y ys]; cbn [combine In];
    try contradiction.
  intros [E | H] [E' | H'].
  - congruence.
  - injection E as <- <-. apply in_combine_l in H'. contradiction.
  - injection E' as <- <-. apply in_combine_l in H. contradiction.
  - exact (IH ys H H').
Qed.

(** The attribute of a row is on the attention list exactly when its own
    reading is flagged. *)
Lemma flagged_attribute (values : list Q) (cat : string) (val : Q) :
  In (cat, val) (zip categories values) ->
  (In cat (Spec.out_of_range_attributes values) <-> Spec.flagged (cat, val) = true).
Proof.
  intros Hin. unfold Spec.out_of_range_attributes. rewrite in_map_iff. split.
  - intros ([cat' val'] & E & H). cbn [fst] in E. subst cat'.
    apply filter_In in H. destruct H as [H Hf].
    rewrite (zip_functional _ _ _ _ _ categories_nodup Hin H). exact Hf.
  - intros Hf. exists (cat, val). split; [reflexivity |].
    apply filter_In. split; [exact Hin | exact Hf].
Qed.

Lemma out_of_range_attributes_known (values : list Q) (cat : string) :
  In cat (Spec.out_of_range_attributes values) -> In cat categories.
Proof.
  unfold Spec.out_of_range_attributes. rewrite in_map_iff.
  intros ([cat' val'] & E & H). cbn [fst] in E. subst cat'.
  apply filter_In in H. destruct H as [H _].
  apply in_combine_l in H. exact H.
Qed.

Lemma message_listed (values : list Q) (cat : string) :
  In cat categories ->
  (In (message cat) (map message (Spec.out_of_range_attributes values)) <->
   In cat (Spec.out_of_range_attributes values)).
Proof.
  intros Hc. rewrite in_map_iff. split.
  - intros (cat' & E & H).
    apply out_of_range_attributes_known in H as Hk.
    rewrite (message_inj cat cat' Hc (eq_sym E)). exact H.
  - intros H. exists cat. tauto.
Qed.

Lemma flagged_spec (cat : string) (val low high : Q) :
  getitem healthy_ranges cat = Some (low, high) ->
  (Spec.flagged (cat, val) = true <-> Spec.out_of_range val low high).
Proof.
  intros E. rewrite (flagged_outside _ _ _ _ E). apply outside_spec.
Qed.

(** C4: in the chart pass, the bar of an attribute is red and the
    attribute is put on the attention list if and only if its reading is
    below the low bound or above the high bound; a reading equal to
    either bound gets a green bar and no entry. *)
Theorem bounds_are_inclusive
        (values : list Q) (w : World) (k : nat)
        (cat : string) (val low high : Q) :
  nth_error (zip categories values) k = Some (cat, val) ->
  getitem healthy_ranges cat = Some (low, high) ->
  exists w',
    tab2_block values w = Some (tt, w') /\
    (nth_error (colors w') k = Some "#E74C3C" <-> (val < low \/ val > high)%Q) /\
    (nth_error (colors w') k = Some "#27AE60" <-> ~ (val < low \/ val > high)%Q) /\
    (In [Lit "- **"; Str cat; Lit "** is outside the healthy range (";
         Num low; Lit "–"; Num high; Lit ")."] (attention_needed w')
     <-> (val < low \/ val > high)%Q) /\
    ((val == low \/ val == high)%Q ->
     nth_error (colors w') k = Some "#27AE60" /\
     ~ In [Lit "- **"; Str cat; Lit "** is outside the healthy range (";
           Num low; Lit "–"; Num high; Lit ")."] (attention_needed w')).
Proof.
  intros Hk Hr.
  eexists. split; [apply tab2_block_spec |].
  world_steps.
  assert (Hc : nth_error (map bar_colour (zip categories values)) k
               = Some (if outside val low high then "#E74C3C" else "#27AE60")).
  { rewrite nth_error_map, Hk. cbn [option_map]. unfold bar_colour.
    rewrite (flagged_outside _ _ _ _ Hr). reflexivity. }
  assert (Hcat : In cat categories).
  { apply nth_error_In in Hk. apply in_combine_l in Hk. exact Hk. }
  assert (Hm : In (message cat)
                 (map message (Spec.out_of_range_attributes values))
               <-> (val < low \/ val > high)%Q).
  { rewrite (message_listed values cat Hcat).
    rewrite (flagged_attribute values cat val (nth_error_In _ _ Hk)).
    apply (flagged_spec _ _ _ _ Hr). }
  unfold message in Hm at 1. rewrite Hr in Hm.
  pose proof (outside_spec val low high) as Ho.
  assert (Hedge : (val == low \/ val == high)%Q -> ~ (val < low \/ val > high)%Q).
  { pose proof (ranges_ordered _ _ _ Hr) as Hle.
    intros [E | E] [H | H]; rewrite E in H; lra. }
  rewrite Hc. repeat split.
  - destruct (outside val low high); [intros _; tauto | discriminate].
  - destruct (outside val low high); [reflexivity |].
    intros H. apply Ho in H. discriminate.
  - destruct (outside val low high); [discriminate |].
    intros _ H. apply Ho in H. discriminate.
  - destruct (outside val low high); [| reflexivity].
    intros H. exfalso. apply H. tauto.
  - apply Hm.
  - apply Hm.
  - destruct (outside val low high); [| reflexivity].
    exfalso. apply (Hedge H). tauto.
  - rewrite Hm. apply Hedge. exact H.
Qed.

Lemma bounds_are_inclusive_witness :
  nth_error (zip categories [70; 120; 16; 24.9; 50]%Q) 3 = Some ("BMI", 24.9%Q) /\
  getitem healthy_ranges "BMI" = Some (18.5, 24.9)%Q /\
  exists w',
    tab2_block [70; 120; 16; 24.9; 50]%Q Sample.stale = Some (tt, w') /\
    (nth_error (colors w') 3 = Some "#E74C3C" <-> (24.9 < 18.5 \/ 24.9 > 24.9)%Q) /\
    (nth_error (colors w') 3 = Some "#27AE60" <-> ~ (24.9 < 18.5 \/ 24.9 > 24.9)%Q) /\
    (In [Lit "- **"; Str "BMI"; Lit "** is outside the healthy range (";
         Num 18.5; Lit "–"; Num 24.9; Lit ")."] (attention_needed w')
     <-> (24.9 < 18.5 \/ 24.9 > 24.9)%Q) /\
    ((24.9 == 18.5 \/ 24.9 == 24.9)%Q ->
     nth_error (colors w') 3 = Some "#27AE60" /\
     ~ In [Lit "- **"; Str "BMI"; Lit "** is outside the healthy range (";
           Num 18.5; Lit "–"; Num 24.9; Lit ")."] (attention_needed w')).
Proof.
  split; [reflexivity |]. split; [reflexivity |].
  apply (bounds_are_inclusive [70; 120; 16; 24.9; 50]%Q Sample.stale 3
           "BMI" 24.9%Q 18.5%Q 24.9%Q); reflexivity.
Defined.

(** ** Attention list and tips *)

Lemma run_report (m : Classifier) (i : Inputs) (w0 : World) :
  button i = true -> incomplete i = false ->
  exists values w,
    patient_values i = Some values /\
    prediction_logic m i w0 = Some (tt, w) /\
    colors w = map bar_colour (zip categories values) /\
    attention_needed w = map message (Spec.out_of_range_attributes values) /\
    rendered tab3 w0 w =
      tab3_elements (attention_needed w) (Spec.out_of_range_attributes values).
Proof.
  intros Hb Hi. destruct (run_complete m i w0 Hb Hi) as (values & Hv & Hrun).
  exists values, (final m i values w0).
  repeat split; try assumption; try reflexivity.
  rewrite rendered_final. apply select_output.
Qed.

Lemma tips_cover_categories (cat : string) :
  In cat categories -> exists tip, getitem tips cat = Some tip.
Proof.
  intros H. cbn in H.
  repeat (destruct H as [<- | H]; [eexists; reflexivity |]). contradiction.
Qed.

Lemma tip_markdown_known (cat : string) :
  In cat categories ->
  exists tip,
    getitem tips cat = Some tip /\
    tip_markdown cat = st_markdown [Lit "- "; Str tip].
Proof.
  intros H. destruct (tips_cover_categories cat H) as [tip E].
  exists tip. split; [exact E |]. unfold tip_markdown. rewrite E. reflexivity.
Qed.

Lemma recommendations_rendered (cats : list string) :
  (forall cat, In cat cats -> In cat categories) ->
  exists recs,
    map Some recs = map (getitem tips) cats /\
    map tip_markdown cats =
    map (fun tip => st_markdown [Lit "- "; Str tip]) recs.
Proof.
  induction cats as [| cat cats IH]; intros H.
  - exists []. split; reflexivity.
  - destruct IH as (recs & E1 & E2); [intros c Hc; apply H; right; exact Hc |].
    destruct (tip_markdown_known cat (H cat (or_introl eq_refl))) as (tip & T & Tm).
    exists (tip :: recs). cbn [map]. rewrite T, Tm, E1, E2. split; reflexivity.
Qed.

Lemma truthy_map {A B} (f : A -> B) (xs : list A) :
  truthy (map f xs) = truthy xs.
Proof. destruct xs; reflexivity. Qed.

(** C5: for the five numbers typed into the widgets, the attention list
    holds the out-of-range attributes in the declaration order Glucose,
    Blood Pressure, Insulin, BMI, Age; the tips follow in the same
    order, one per out-of-range attribute, and the tips table has an
    entry for each of the five attributes. *)
Theorem attention_and_tips_in_declaration_order
        (m : Classifier) (i : Inputs) (w0 : World)
        (g bp ins : Z) (b : Q) (a : Z) :
  button i = true ->
  glucose i = Some g -> blood_pressure i = Some bp -> insulin i = Some ins ->
  bmi i = Some b -> age i = Some a -> location i <> "" ->
  categories = ["Glucose"; "Blood Pressure"; "Insulin"; "BMI"; "Age"] /\
  (forall cat, In cat categories -> exists tip, getitem tips cat = Some tip) /\
  exists values w recs,
    values = [inject_Z g; inject_Z bp; inject_Z ins; b; inject_Z a] /\
    prediction_logic m i w0 = Some (tt, w) /\
    attention_needed w = map message (Spec.out_of_range_attributes values) /\
    map Some recs = Spec.recommendations values /\
    rendered tab3 w0 w =
      st_subheader [Lit "⚠️ Health Areas Needing Attention"]
      :: match Spec.out_of_range_attributes values with
         | [] =>
             [st_success
                [Lit "✅ All entered values are within the healthy range."]]
         | _ :: _ =>
             (map st_markdown (attention_needed w)
                ++ st_markdown [Lit "### 💡 Suggested Next Steps"]
                :: map (fun tip => st_markdown [Lit "- "; Str tip]) recs)%list
         end.
Proof.
  intros Hb Hg Hbp Hins Hbmi Hage Hloc.
  split; [reflexivity |]. split; [exact tips_cover_categories |].
  set (values := [inject_Z g; inject_Z bp; inject_Z ins; b; inject_Z a]).
  destruct (recommendations_rendered (Spec.out_of_range_attributes values)
              (out_of_range_attributes_known values)) as (recs & E1 & E2).
  exists values, (final m i values w0), recs.
  split; [reflexivity |].
  split; [exact (run_on_fields m i w0 g bp ins b a Hb Hg Hbp Hins Hbmi Hage Hloc) |].
  split; [reflexivity |]. split; [exact E1 |].
  rewrite rendered_final.
  destruct (select_output m i values) as (_ & _ & _ & -> & _).
  unfold tab3_elements, final. cbn [attention_needed].
  rewrite truthy_map, E2.
  destruct (Spec.out_of_range_attributes values); reflexivity.
Qed.

Lemma attention_and_tips_in_declaration_order_witness :
  button Sample.at_risk = true /\
  glucose Sample.at_risk = Some 200 /\ blood_pressure Sample.at_risk = Some 150 /\
  insulin Sample.at_risk = Some 85 /\ bmi Sample.at_risk = Some 25.5%Q /\
  age Sample.at_risk = Some 35 /\ location Sample.at_risk <> "" /\
  exists values w recs,
    values = [inject_Z 200; inject_Z 150; inject_Z 85; 25.5%Q; inject_Z 35] /\
    prediction_logic (Sample.reporting 0.83) Sample.at_risk fresh = Some (tt, w) /\
    attention_needed w = map message (Spec.out_of_range_attributes values) /\
    map Some recs = Spec.recommendations values /\
    rendered tab3 fresh w =
      st_subheader [Lit "⚠️ Health Areas Needing Attention"]
      :: match Spec.out_of_range_attributes values with
         | [] =>
             [st_success
                [Lit "✅ All entered values are within the healthy range."]]
         | _ :: _ =>
             (map st_markdown (attention_needed w)
                ++ st_markdown [Lit "### 💡 Suggested Next Steps"]
                :: map (fun tip => st_markdown [Lit "- "; Str tip]) recs)%list
         end.
Proof.
  repeat (split; [first [reflexivity | discriminate] |]).
  apply (attention_and_tips_in_declaration_order
           (Sample.reporting 0.83) Sample.at_risk fresh 200 150 85 25.5%Q 35);
    first [reflexivity | discriminate].
Defined.

Lemma within_range_not_flagged (rows : list (string * Q)) :
  Forall Spec.within_range rows -> filter Spec.flagged rows = [].
Proof.
  induction 1 as [| [cat val] rows (low & high & E & Hle) _ IH]; [reflexivity |].
  cbn [filter fst snd] in *. rewrite (flagged_outside _ _ _ _ E).
  apply outside_false in Hle. rewrite Hle. exact IH.
Qed.

Lemma within_range_green (rows : list (string * Q)) :
  Forall Spec.within_range rows ->
  map bar_colour rows = map (fun _ => "#27AE60") rows.
Proof.
  induction 1 as [| [cat val] rows (low & high & E & Hle) _ IH]; [reflexivity |].
  cbn [map fst snd] in *. rewrite IH. unfold bar_colour.
  rewrite (flagged_outside _ _ _ _ E).
  apply outside_false in Hle. rewrite Hle. reflexivity.
Qed.

(** C7: when all five readings lie within their healthy ranges, no
    attribute is out of range, the attention list and the recommendation
    list are empty, every bar is green and tab 3 shows only the
    all-healthy banner. *)
Theorem readings_in_range_need_no_attention
        (m : Classifier) (i : Inputs) (w0 : World) (values : list Q) :
  button i = true -> incomplete i = false ->
  patient_values i = Some values ->
  Forall Spec.within_range (combine Spec.attributes values) ->
  exists w,
    prediction_logic m i w0 = Some (tt, w) /\
    Spec.out_of_range_attributes values = [] /\
    Spec.recommendations values = [] /\
    attention_needed w = [] /\
    colors w = ["#27AE60"; "#27AE60"; "#27AE60"; "#27AE60"; "#27AE60"] /\
    rendered tab3 w0 w =
      [ st_subheader [Lit "⚠️ Health Areas Needing Attention"];
        st_success [Lit "✅ All entered values are within the healthy range."] ].
Proof.
  intros Hb Hi Hv Hin.
  destruct (run_report m i w0 Hb Hi) as (values' & w & Hv' & Hrun & Hc & Ha & Ht).
  rewrite Hv in Hv'. injection Hv' as <-.
  assert (Hnone : Spec.out_of_range_attributes values = []).
  { unfold Spec.out_of_range_attributes.
    rewrite (within_range_not_flagged _ Hin). reflexivity. }
  exists w. split; [exact Hrun |]. split; [exact Hnone |].
  rewrite Hnone in Ha.
  split; [unfold Spec.recommendations; rewrite Hnone; reflexivity |].
  split; [exact Ha |]. split.
  - rewrite Hc.
    change (zip categories values) with (combine Spec.attributes values).
    rewrite (within_range_green _ Hin).
    destruct (complete_values i Hi)
      as (g & bp & ins & b & a & _ & _ & _ & _ & _ & _ & Hv').
    rewrite Hv in Hv'. injection Hv' as ->. reflexivity.
  - rewrite Ht, Ha. reflexivity.
Qed.

Lemma readings_in_range_need_no_attention_witness :
  button Sample.on_the_bounds = true /\
  incomplete Sample.on_the_bounds = false /\
  patient_values Sample.on_the_bounds = Some [70; 120; 16; 24.9; 50]%Q /\
  Forall Spec.within_range (combine Spec.attributes [70; 120; 16; 24.9; 50]%Q) /\
  exists w,
    prediction_logic (Sample.reporting 0.12) Sample.on_the_bounds Sample.stale
      = Some (tt, w) /\
    Spec.out_of_range_attributes [70; 120; 16; 24.9; 50]%Q = [] /\
    Spec.recommendations [70; 120; 16; 24.9; 50]%Q = [] /\
    attention_needed w = [] /\
    colors w = ["#27AE60"; "#27AE60"; "#27AE60"; "#27AE60"; "#27AE60"] /\
    rendered tab3 Sample.stale w =
      [ st_subheader [Lit "⚠️ Health Areas Needing Attention"];
        st_success [Lit "✅ All entered values are within the healthy range."] ].
Proof.
  assert (Hin : Forall Spec.within_range
                  (combine Spec.attributes [70; 120; 16; 24.9; 50]%Q)).
  { cbn [combine Spec.attributes].
    repeat (constructor;
            [eexists; eexists; split; [reflexivity | split; discriminate] |]).
    constructor. }
  split; [reflexivity |]. split; [reflexivity |]. split; [reflexivity |].
  split; [exact Hin |].
  apply (readings_in_range_need_no_attention
           (Sample.reporting 0.12) Sample.on_the_bounds Sample.stale
           [70; 120; 16; 24.9; 50]%Q);
    [reflexivity | reflexivity | reflexivity | exact Hin].
Defined.

(** ** The two passes agree *)

Lemma tip_markdown_inj (cat cat' : string) :
  In cat categories -> In cat' categories ->
  tip_markdown cat = tip_markdown cat' -> cat = cat'.
Proof.
  intros H H'. cbn in H, H'.
  repeat (destruct H as [<- | H]; [| try contradiction]);
    repeat (destruct H' as [<- | H']; [| try contradiction]);
    intros E; try reflexivity; vm_compute in E; discriminate E.
Qed.

Lemma message_shape (cat : string) :
  message cat <> [Lit "### 💡 Suggested Next Steps"] /\
  forall tip, message cat <> [Lit "- "; Str tip].
Proof.
  unfold message.
  destruct (getitem healthy_ranges cat) as [[low high] |];
    split; try intros tip; discriminate.
Qed.

Lemma tip_listed (attention : list fstring) (cats : list string) (cat : string) :
  In cat categories ->
  (forall c, In c cats -> In c categories) ->
  (forall msg, In msg attention -> exists c, msg = message c) ->
  (In (tip_markdown cat) (tab3_elements attention cats) <->
   truthy attention = true /\ In cat cats).
Proof.
  intros Hc Hcats Hatt.
  destruct (tip_markdown_known cat Hc) as (tip & _ & Tm).
  unfold tab3_elements, suggested_next_steps. cbn [In]. rewrite in_app_iff.
  destruct (truthy attention); cbn [In]; rewrite Tm; split.
  - intros [H | [H | [H | H]]]; try discriminate H.
    + apply in_map_iff in H. destruct H as (msg & E & Hin).
      injection E as E. destruct (Hatt msg Hin) as (c & ->).
      exfalso. exact (proj2 (message_shape c) tip E).
    + rewrite <- Tm in H. apply in_map_iff in H. destruct H as (c & E & Hin).
      rewrite (tip_markdown_inj cat c Hc (Hcats c Hin) (eq_sym E)).
      split; [reflexivity | exact Hin].
  - intros [_ H]. right. right. right. rewrite <- Tm.
    apply in_map. exact H.
  - intros [H | [[H | []] | []]]; discriminate H.
  - intros [H _]. discriminate H.
Qed.

(** C9: the range test is made twice, in the chart pass and in the tips
    pass, and the two agree: a tip for an attribute is rendered if and
    only if that attribute's message is on the attention list. *)
Theorem tips_agree_with_attention_list
        (m : Classifier) (i : Inputs) (w0 : World) :
  button i = true -> incomplete i = false ->
  exists w,
    prediction_logic m i w0 = Some (tt, w) /\
    forall cat,
      In cat categories ->
      (In (tip_markdown cat) (rendered tab3 w0 w) <->
       In (message cat) (attention_needed w)).
Proof.
  intros Hb Hi.
  destruct (run_report m i w0 Hb Hi) as (values & w & Hv & Hrun & _ & Ha & Ht).
  exists w. split; [exact Hrun |]. intros cat Hc.
  rewrite Ht, Ha, (message_listed values cat Hc).
  rewrite tip_listed.
  - rewrite truthy_map. split; [tauto |].
    intros H. split; [| exact H].
    destruct (Spec.out_of_range_attributes values); [contradiction | reflexivity].
  - exact Hc.
  - apply out_of_range_attributes_known.
  - intros msg H. apply in_map_iff in H. destruct H as (c & E & _).
    exists c. symmetry. exact E.
Qed.

Lemma tips_agree_with_attention_list_witness :
  button Sample.at_risk = true /\
  incomplete Sample.at_risk = false /\
  exists w,
    prediction_logic (Sample.reporting 0.83) Sample.at_risk fresh = Some (tt, w) /\
    forall cat,
      In cat categories ->
      (In (tip_markdown cat) (rendered tab3 fresh w) <->
       In (message cat) (attention_needed w)).
Proof.
  split; [reflexivity |]. split; [reflexivity |].
  apply (tips_agree_with_attention_list (Sample.reporting 0.83) Sample.at_risk
           fresh); reflexivity.
Defined.

(** ** Incomplete input *)

Lemma tab3_page_no_warning (attention : list fstring) (cats : list string) :
  forallb (fun ce => negb (is_warning (snd ce))) (tab3_page attention cats) = true.
Proof.
  unfold tab3_page. cbn [forallb snd is_warning negb andb].
  rewrite forallb_app.
  destruct (truthy attention); cbn [forallb snd is_warning negb andb];
    rewrite ?forallb_forall; try reflexivity.
  apply andb_true_iff. split; apply forallb_forall.
  - intros ce H. apply in_map_iff in H. destruct H as (msg & <- & _). reflexivity.
  - intros ce H. apply in_map_iff in H. destruct H as (c & <- & _).
    unfold tip_line, tip_markdown. cbn [snd].
    destruct (getitem tips c); reflexivity.
Qed.

Lemma output_no_warning (m : Classifier) (i : Inputs) (values : list Q) :
  forallb (fun ce => negb (is_warning (snd ce))) (output m i values) = true.
Proof.
  unfold output. rewrite !forallb_app, tab3_page_no_warning.
  unfold tab1_page, tab2_page. cbn [forallb snd is_warning negb andb].
  destruct (predict m values =? 1)%Z; reflexivity.
Qed.

Lemma rendered_no_warning (m : Classifier) (i : Inputs) (values : list Q)
      (w0 : World) (c : container) (text : fstring) :
  ~ In (st_warning text) (rendered c w0 (final m i values w0)).
Proof.
  rewrite rendered_final. unfold select. intros H.
  apply in_map_iff in H. destruct H as ([c' e] & E & H). cbn [snd] in E. subst e.
  apply filter_In in H. destruct H as [H _].
  pose proof (output_no_warning m i values) as Hall.
  rewrite forallb_forall in Hall. specialize (Hall _ H). discriminate Hall.
Qed.

Lemma rendered_warning (w0 : World) (c : container) :
  rendered c w0 (set_page (page w0 ++ [warning_shown])%list w0) =
  match c with body => [snd warning_shown] | _ => [] end.
Proof.
  unfold rendered. destruct w0 as [pr p hs cs att pg cl]. world_steps.
  rewrite skipn_app_exact. destruct c; reflexivity.
Qed.

(** C6: when the predict button fires with any of the five numbers unset
    or with an empty location, the run shows the warning and nothing
    else: no call into the classifier, no name assigned, nothing rendered
    in the tabs, no download.  Otherwise the run completes on the five
    numbers typed: it calls [predict] on them and then [predict_proba]
    when the classifier has it, keeps the label, fills the three tabs,
    offers the download and shows no warning. *)
Theorem incomplete_input_is_rejected (m : Classifier) (i : Inputs) (w0 : World) :
  button i = true ->
  ((glucose i = None \/ blood_pressure i = None \/ insulin i = None \/
    bmi i = None \/ age i = None \/ location i = "") ->
   exists w,
     prediction_logic m i w0 = Some (tt, w) /\
     rendered body w0 w =
       [st_warning
          [Lit "⚠️ Please enter all patient details (including location) before predicting."]] /\
     rendered tab1 w0 w = [] /\ rendered tab2 w0 w = [] /\
     rendered tab3 w0 w = [] /\
     calls w = calls w0 /\
     prediction w = prediction w0 /\ proba w = proba w0 /\
     health_score w = health_score w0 /\ colors w = colors w0 /\
     attention_needed w = attention_needed w0) /\
  (~ (glucose i = None \/ blood_pressure i = None \/ insulin i = None \/
      bmi i = None \/ age i = None \/ location i = "") ->
   exists g bp ins b a values w pdf,
     glucose i = Some g /\ blood_pressure i = Some bp /\
     insulin i = Some ins /\ bmi i = Some b /\ age i = Some a /\
     values = [inject_Z g; inject_Z bp; inject_Z ins; b; inject_Z a] /\
     prediction_logic m i w0 = Some (tt, w) /\
     calls w =
       (calls w0
          ++ call_predict [values]
          :: (if has_predict_proba m
              then [call_predict_proba [values]] else []))%list /\
     prediction w = [predict m values] /\
     attention_needed w = map message (Spec.out_of_range_attributes values) /\
     rendered tab1 w0 w =
       map snd (tab1_page i (predict m values) (proba w) (health_score w)) /\
     rendered tab2 w0 w = map snd (tab2_page values) /\
     rendered tab3 w0 w =
       tab3_elements (attention_needed w) (Spec.out_of_range_attributes values) /\
     rendered body w0 w =
       [st_download_button "📥 Download Report (PDF)" pdf
          "diabetes_report.pdf" "application/pdf"] /\
     forall c text, ~ In (st_warning text) (rendered c w0 w)).
Proof.
  intros Hb. split; intros H.
  - apply incomplete_true_iff in H.
    exists (set_page (page w0 ++ [warning_shown])%list w0).
    split; [exact (run_incomplete m i w0 Hb H) |].
    rewrite !rendered_warning.
    destruct w0 as [pr p hs cs att pg cl]. repeat split.
  - rewrite <- incomplete_true_iff in H. apply not_true_iff_false in H.
    destruct (complete_values i H)
      as (g & bp & ins & b & a & Hg & Hbp & Hins & Hbmi & Hage & Hloc & Hv).
    set (values := [inject_Z g; inject_Z bp; inject_Z ins; b; inject_Z a]) in *.
    destruct (select_output m i values) as (_ & H1 & H2 & H3 & pdf & H4).
    exists g, bp, ins, b, a, values, (final m i values w0), pdf.
    repeat (split; [assumption |]). split; [reflexivity |].
    split; [exact (run_on_fields m i w0 g bp ins b a Hb Hg Hbp Hins Hbmi Hage Hloc) |].
    rewrite !rendered_final.
    repeat split; try assumption; try reflexivity.
    intros c text. apply rendered_no_warning.
Qed.

Lemma incomplete_input_is_rejected_witness :
  button Sample.no_insulin = true /\
  (exists w,
     prediction_logic (Sample.reporting 0.83) Sample.no_insulin fresh
       = Some (tt, w) /\
     rendered body fresh w =
       [st_warning
          [Lit "⚠️ Please enter all patient details (including location) before predicting."]] /\
     rendered tab1 fresh w = [] /\ rendered tab2 fresh w = [] /\
     rendered tab3 fresh w = [] /\
     calls w = calls fresh /\
     prediction w = prediction fresh /\ proba w = proba fresh /\
     health_score w = health_score fresh /\ colors w = colors fresh /\
     attention_needed w = attention_needed fresh) /\
  button Sample.at_risk = true /\
  (exists g bp ins b a values w pdf,
     glucose Sample.at_risk = Some g /\ blood_pressure Sample.at_risk = Some bp /\
     insulin Sample.at_risk = Some ins /\ bmi Sample.at_risk = Some b /\
     age Sample.at_risk = Some a /\
     values = [inject_Z g; inject_Z bp; inject_Z ins; b; inject_Z a] /\
     prediction_logic Sample.labels_only Sample.at_risk fresh = Some (tt, w) /\
     calls w =
       (calls fresh
          ++ call_predict [values]
          :: (if has_predict_proba Sample.labels_only
              then [call_predict_proba [values]] else []))%list /\
     prediction w = [predict Sample.labels_only values] /\
     attention_needed w = map message (Spec.out_of_range_attributes values) /\
     rendered tab1 fresh w =
       map snd (tab1_page Sample.at_risk (predict Sample.labels_only values)
                  (proba w) (health_score w)) /\
     rendered tab2 fresh w = map snd (tab2_page values) /\
     rendered tab3 fresh w =
       tab3_elements (attention_needed w) (Spec.out_of_range_attributes values) /\
     rendered body fresh w =
       [st_download_button "📥 Download Report (PDF)" pdf
          "diabetes_report.pdf" "application/pdf"] /\
     forall c text, ~ In (st_warning text) (rendered c fresh w)).
Proof.
  split; [reflexivity |]. split.
  - apply (proj1 (incomplete_input_is_rejected (Sample.reporting 0.83)
                    Sample.no_insulin fresh eq_refl)).
    right. right. left. reflexivity.
  - split; [reflexivity |].
    apply (proj2 (incomplete_input_is_rejected Sample.labels_only
                    Sample.at_risk fresh eq_refl)).
    intros [H | [H | [H | [H | [H | H]]]]]; discriminate H.
Defined.



(** ** Determinism *)

Lemma risk_percent_agrees (m1 m2 : Classifier) (X : list (list Q)) :
  try_proba m1 X = try_proba m2 X -> risk_percent m1 X = risk_percent m2 X.
Proof. unfold risk_percent. intros ->. reflexivity. Qed.

Lemma output_agrees (m1 m2 : Classifier) (i : Inputs) (values : list Q) :
  predict m1 values = predict m2 values ->
  try_proba m1 [values] = try_proba m2 [values] ->
  output m1 i values = output m2 i values.
Proof.
  intros Hl Hp. unfold output.
  rewrite Hl, (risk_percent_agrees m1 m2 [values] Hp). reflexivity.
Qed.

(** C8: a run is a function of the widgets and of the classifier's
    verdict on the five numbers (its label and what the [try] around
    [predict_proba] yields).  Two runs on the same widgets with the same
    verdict assign the same prediction, probability, health score, bar
    colours and attention list and render the same elements in every
    container, whatever an earlier run left in the names of the block,
    on the page or in the call log. *)
Theorem evaluation_is_deterministic
        (m1 m2 : Classifier) (i : Inputs) (w1 w2 : World) :
  button i = true -> incomplete i = false ->
  (forall values,
     patient_values i = Some values ->
     predict m1 values = predict m2 values /\
     try_proba m1 [values] = try_proba m2 [values]) ->
  exists v1 v2,
    prediction_logic m1 i w1 = Some (tt, v1) /\
    prediction_logic m2 i w2 = Some (tt, v2) /\
    prediction v1 = prediction v2 /\
    proba v1 = proba v2 /\
    health_score v1 = health_score v2 /\
    colors v1 = colors v2 /\
    attention_needed v1 = attention_needed v2 /\
    forall c, rendered c w1 v1 = rendered c w2 v2.
Proof.
  intros Hb Hi Hsame.
  destruct (run_complete m1 i w1 Hb Hi) as (values & Hv & Hrun1).
  destruct (run_complete m2 i w2 Hb Hi) as (values' & Hv' & Hrun2).
  rewrite Hv in Hv'. injection Hv' as <-.
  destruct (Hsame values Hv) as [Hl Hp].
  pose proof (risk_percent_agrees m1 m2 [values] Hp) as Hr.
  exists (final m1 i values w1), (final m2 i values w2).
  split; [exact Hrun1 |]. split; [exact Hrun2 |].
  unfold final at 1 2 3 4 5 6 7 8 9 10. world_steps. rewrite Hl, Hr.
  repeat split.
  intros c. rewrite !rendered_final, (output_agrees m1 m2 i values Hl Hp).
  reflexivity.
Qed.

Lemma evaluation_is_deterministic_witness :
  button Sample.at_risk = true /\
  incomplete Sample.at_risk = false /\
  exists v1 v2,
    prediction_logic (Sample.reporting 0.83) Sample.at_risk fresh = Some (tt, v1) /\
    prediction_logic (Sample.reporting 0.83) Sample.at_risk Sample.stale
      = Some (tt, v2) /\
    prediction v1 = prediction v2 /\
    proba v1 = proba v2 /\
    health_score v1 = health_score v2 /\
    colors v1 = colors v2 /\
    attention_needed v1 = attention_needed v2 /\
    forall c, rendered c fresh v1 = rendered c Sample.stale v2.
Proof.
  split; [reflexivity |]. split; [reflexivity |].
  apply (evaluation_is_deterministic (Sample.reporting 0.83)
           (Sample.reporting 0.83) Sample.at_risk fresh Sample.stale);
    [reflexivity | reflexivity |].
  intros values _. split; reflexivity.
Defined.

(** * Further properties of the script *)

(** ** The two passes never raise *)

(** X1: for any five readings and whatever an earlier run left behind,
    the chart pass and the recommendations pass never raise: each
    lookup in [healthy_ranges], [healthy_targets] and [tips] hits.  The
    chart pass leaves exactly five colours and an attention list built
    from scratch, of at most five entries; the recommendations pass
    changes neither. *)
Theorem chart_and_tips_never_raise (values : list Q) (w : World) :
  List.length values = 5%nat ->
  exists w2 w3,
    tab2_block values w = Some (tt, w2) /\
    tab3_block values w2 = Some (tt, w3) /\
    List.length (colors w2) = 5%nat /\
    (List.length (attention_needed w2) <= 5)%nat /\
    attention_needed w2 = map message (Spec.out_of_range_attributes values) /\
    colors w3 = colors w2 /\
    attention_needed w3 = attention_needed w2.
Proof.
  intros Hlen.
  eexists _, _. split; [apply tab2_block_spec |].
  split; [apply tab3_block_spec |].
  destruct w as [pr p hs cs att pg cl]. world_steps.
  assert (Hrows : List.length (zip categories values) = 5%nat).
  { unfold zip. rewrite length_combine, Hlen. reflexivity. }
  split; [rewrite length_map; exact Hrows |]. split.
  - unfold Spec.out_of_range_attributes. rewrite !length_map.
    change (combine Spec.attributes values) with (zip categories values).
    rewrite <- Hrows. apply filter_length_le.
  - repeat split.
Qed.

Lemma chart_and_tips_never_raise_witness :
  List.length [200; 150; 85; 25.5; 35]%Q = 5%nat /\
  exists w2 w3,
    tab2_block [200; 150; 85; 25.5; 35]%Q Sample.stale = Some (tt, w2) /\
    tab3_block [200; 150; 85; 25.5; 35]%Q w2 = Some (tt, w3) /\
    List.length (colors w2) = 5%nat /\
    (List.length (attention_needed w2) <= 5)%nat /\
    attention_needed w2 =
      map message (Spec.out_of_range_attributes [200; 150; 85; 25.5; 35]%Q) /\
    colors w3 = colors w2 /\
    attention_needed w3 = attention_needed w2.
Proof.
  split; [reflexivity |].
  apply (chart_and_tips_never_raise [200; 150; 85; 25.5; 35]%Q Sample.stale).
  reflexivity.
Defined.

(** ** More on the probability and the score *)

Lemma int_scaled (n : Z) (d k : positive) :
  Z.quot (n * Zpos k) (Zpos d * Zpos k) = Z.quot n (Zpos d).
Proof. apply Z.quot_mul_cancel_r; lia. Qed.

Lemma int_monotone (x y : Q) : (x <= y)%Q -> int x <= int y.
Proof.
  destruct x as [a b], y as [c d]. unfold Qle, int. cbn [Qnum Qden]. intros H.
  rewrite <- (int_scaled a b d), <- (int_scaled c d b).
  rewrite (Z.mul_comm (Zpos d) (Zpos b)).
  apply Z.quot_le_mono; lia.
Qed.

Lemma int_Qeq (x y : Q) : (x == y)%Q -> int x = int y.
Proof.
  intros E. apply Z.le_antisymm; apply int_monotone; rewrite E; apply Qle_refl.
Qed.

Lemma int_inject_Z (z : Z) : int (inject_Z z) = z.
Proof. unfold int, inject_Z. cbn [Qnum Qden]. apply Z.quot_1_r. Qed.

(** X2: an answer of [predict_proba] without a first row, or whose
    first row has fewer than two columns, makes the indexing raise
    inside the [try]: the run falls back to a probability of 50 percent
    and a health score of 50, as for a missing capability. *)
Theorem malformed_predict_proba_scores_50
        (m : Classifier) (i : Inputs) (w0 : World) :
  button i = true -> incomplete i = false ->
  (forall values,
     patient_values i = Some values ->
     exists P,
       predict_proba m [values] = Some P /\
       (nth_error P 0 = None \/
        exists row, nth_error P 0 = Some row /\ (List.length row < 2)%nat)) ->
  exists w,
    prediction_logic m i w0 = Some (tt, w) /\
    proba w = 50%Q /\
    health_score w = 50 /\
    In (st_metric "Diabetes Risk Probability" [Fix1 50%Q; Lit "%"])
       (rendered tab1 w0 w).
Proof.
  intros Hb Hi Hbad.
  destruct (run_scores m i w0 Hb Hi) as (values & w & Hv & Hrun & Hpr & Hs & Ht).
  assert (Hp : proba w = 50%Q).
  { rewrite Hpr. unfold risk_percent, try_proba.
    destruct (has_predict_proba m); [| reflexivity].
    destruct (Hbad values Hv) as (P & -> & [-> | (row & -> & Hlen)]);
      [reflexivity |].
    destruct row as [| p0 [| p1 row]]; cbn in Hlen; try lia; reflexivity. }
  assert (Hh : health_score w = 50) by (rewrite Hs, Hp; reflexivity).
  exists w. repeat split; try assumption.
  rewrite Ht, Hp. unfold tab1_page. cbn [map snd In]. tauto.
Qed.

Lemma malformed_predict_proba_scores_50_witness :
  button Sample.at_risk = true /\
  incomplete Sample.at_risk = false /\
  exists w,
    prediction_logic Cases.one_class Sample.at_risk fresh = Some (tt, w) /\
    proba w = 50%Q /\
    health_score w = 50 /\
    In (st_metric "Diabetes Risk Probability" [Fix1 50%Q; Lit "%"])
       (rendered tab1 fresh w).
Proof.
  split; [reflexivity |]. split; [reflexivity |].
  apply (malformed_predict_proba_scores_50 Cases.one_class Sample.at_risk fresh);
    [reflexivity | reflexivity |].
  intros values _. exists [[1%Q]]. split; [reflexivity |].
  right. exists [1%Q]. split; [reflexivity | cbn; lia].
Defined.

(** X3: "higher score = healthier": of two runs on complete inputs, the
    one with the higher probability never has the higher health score. *)
Theorem higher_risk_never_scores_higher
        (m1 m2 : Classifier) (i1 i2 : Inputs) (w1 w2 : World) :
  button i1 = true -> incomplete i1 = false ->
  button i2 = true -> incomplete i2 = false ->
  exists v1 v2,
    prediction_logic m1 i1 w1 = Some (tt, v1) /\
    prediction_logic m2 i2 w2 = Some (tt, v2) /\
    ((proba v1 <= proba v2)%Q -> health_score v2 <= health_score v1).
Proof.
  intros Hb1 Hi1 Hb2 Hi2.
  destruct (run_scores m1 i1 w1 Hb1 Hi1) as (_ & v1 & _ & Hrun1 & _ & Hs1 & _).
  destruct (run_scores m2 i2 w2 Hb2 Hi2) as (_ & v2 & _ & Hrun2 & _ & Hs2 & _).
  exists v1, v2. split; [exact Hrun1 |]. split; [exact Hrun2 |].
  intros Hle. rewrite Hs1, Hs2. apply int_monotone. lra.
Qed.

Lemma higher_risk_never_scores_higher_witness :
  button Sample.in_range = true /\ incomplete Sample.in_range = false /\
  button Sample.at_risk = true /\ incomplete Sample.at_risk = false /\
  exists v1 v2,
    prediction_logic (Sample.reporting 0.12) Sample.in_range fresh
      = Some (tt, v1) /\
    prediction_logic (Sample.reporting 0.83) Sample.at_risk Sample.stale
      = Some (tt, v2) /\
    ((proba v1 <= proba v2)%Q -> health_score v2 <= health_score v1).
Proof.
  repeat (split; [reflexivity |]).
  apply (higher_risk_never_scores_higher
           (Sample.reporting 0.12) (Sample.reporting 0.83)
           Sample.in_range Sample.at_risk fresh Sample.stale); reflexivity.
Defined.

(** X4: when the probability in percent is a whole number [n] that a
    double holds exactly together with [100 - n] (here: up to 2^52 in
    size), of either sign, the health score is exactly [100 - n], so
    that score and percent add up to 100. *)
Theorem whole_percent_complements (m : Classifier) (i : Inputs) (w0 : World) :
  button i = true -> incomplete i = false ->
  exists w,
    prediction_logic m i w0 = Some (tt, w) /\
    forall n : Z,
      Z.abs n <= 2 ^ 52 ->
      (proba w == inject_Z n)%Q ->
      health_score w = 100 - n /\
      (inject_Z (health_score w) + proba w == 100)%Q.
Proof.
  intros Hb Hi.
  destruct (run_scores m i w0 Hb Hi) as (_ & w & _ & Hrun & _ & Hs & _).
  exists w. split; [exact Hrun |]. intros n _ Hn.
  assert (Hh : health_score w = 100 - n).
  { rewrite Hs. rewrite <- (int_inject_Z (100 - n)). apply int_Qeq.
    rewrite Hn. unfold Z.sub. rewrite inject_Z_plus, inject_Z_opp. reflexivity. }
  split; [exact Hh |].
  rewrite Hh, Hn. unfold Z.sub. rewrite inject_Z_plus, inject_Z_opp.
  change (inject_Z 100) with 100%Q. ring.
Qed.

Lemma whole_percent_complements_witness :
  button Sample.in_range = true /\ incomplete Sample.in_range = false /\
  exists w,
    prediction_logic (Sample.reporting 1.5) Sample.in_range fresh
      = Some (tt, w) /\
    forall n : Z,
      Z.abs n <= 2 ^ 52 ->
      (proba w == inject_Z n)%Q ->
      health_score w = 100 - n /\
      (inject_Z (health_score w) + proba w == 100)%Q.
Proof.
  repeat (split; [reflexivity |]).
  apply (whole_percent_complements (Sample.reporting 1.5) Sample.in_range fresh);
    reflexivity.
Defined.

(** ** Tab 1 and the report *)

(** X5: tab 1 shows the red "may have diabetes" banner exactly when the
    predicted label is 1 and the green "unlikely" banner for every other
    label, never both. *)
Theorem banner_follows_label (m : Classifier) (i : Inputs) (w0 : World) :
  button i = true -> incomplete i = false ->
  exists values w,
    patient_values i = Some values /\
    prediction_logic m i w0 = Some (tt, w) /\
    (In (st_error
           [Lit "⚠️ The model predicts this person **may have diabetes**."])
        (rendered tab1 w0 w) <-> predict m values = 1) /\
    (In (st_success
           [Lit "✅ The model predicts this person is **unlikely to have diabetes**."])
        (rendered tab1 w0 w) <-> predict m values <> 1).
Proof.
  intros Hb Hi.
  destruct (run_scores m i w0 Hb Hi) as (values & w & Hv & Hrun & _ & _ & Ht).
  exists values, w. split; [exact Hv |]. split; [exact Hrun |].
  rewrite Ht. unfold tab1_page. cbn [map snd In].
  destruct (Z.eqb_spec (predict m values) 1) as [E | E]; split; split;
    try (intros [H | [H | [H | [H | [H | []]]]]]; discriminate H);
    try tauto; intros H; try contradiction; try (exfalso; exact (H E)).
Qed.

Lemma banner_follows_label_witness :
  button Sample.in_range = true /\ incomplete Sample.in_range = false /\
  exists values w,
    patient_values Sample.in_range = Some values /\
    prediction_logic Cases.contrary Sample.in_range fresh = Some (tt, w) /\
    (In (st_error
           [Lit "⚠️ The model predicts this person **may have diabetes**."])
        (rendered tab1 fresh w) <-> predict Cases.contrary values = 1) /\
    (In (st_success
           [Lit "✅ The model predicts this person is **unlikely to have diabetes**."])
        (rendered tab1 fresh w) <-> predict Cases.contrary values <> 1).
Proof.
  repeat (split; [reflexivity |]).
  apply (banner_follows_label Cases.contrary Sample.in_range fresh); reflexivity.
Defined.

Lemma select_body_output (m : Classifier) (i : Inputs) (values : list Q) :
  select body (output m i values) =
  [st_download_button "📥 Download Report (PDF)"
     (pdf_text i values
        (mkWorld [predict m values] (risk_percent m [values])
           (int (100 - risk_percent m [values])%Q) [] [] [] []))
     "diabetes_report.pdf" "application/pdf"].
Proof.
  unfold output, select.
  rewrite !select_app, select_tab3_page.
  cbn [container_eqb]. unfold tab1_page, tab2_page.
  cbn [filter map fst snd container_eqb app]. reflexivity.
Qed.

Lemma run_pdf (m : Classifier) (i : Inputs) (w0 : World) :
  button i = true -> incomplete i = false ->
  exists g bp ins b a w,
    glucose i = Some g /\ blood_pressure i = Some bp /\ insulin i = Some ins /\
    bmi i = Some b /\ age i = Some a /\
    let values := [inject_Z g; inject_Z bp; inject_Z ins; b; inject_Z a] in
    patient_values i = Some values /\
    prediction_logic m i w0 = Some (tt, w) /\
    prediction w = [predict m values] /\
    rendered tab1 w0 w =
      map snd (tab1_page i (predict m values) (proba w) (health_score w)) /\
    rendered body w0 w =
      [st_download_button "📥 Download Report (PDF)"
         (pdf_text i values
            (mkWorld [predict m values] (proba w) (health_score w) [] [] [] []))
         "diabetes_report.pdf" "application/pdf"].
Proof.
  intros Hb Hi.
  destruct (complete_values i Hi)
    as (g & bp & ins & b & a & Hg & Hbp & Hins & Hbmi & Hage & _ & Hv).
  exists g, bp, ins, b, a.
  exists (final m i [inject_Z g; inject_Z bp; inject_Z ins; b; inject_Z a] w0).
  repeat (split; [assumption |]). split.
  - unfold prediction_logic. rewrite Hb, Hi. apply evaluate_spec. exact Hv.
  - split; [reflexivity |]. rewrite !rendered_final. split.
    + apply select_output.
    + apply select_body_output.
Qed.

(** X6: the downloadable report agrees with tab 1: it says "Diabetes"
    exactly when tab 1 shows the red banner and "No Diabetes" exactly
    when it shows the green one, and it prints the probability and the
    health score that the two metrics of tab 1 show. *)
Theorem report_agrees_with_tab1 (m : Classifier) (i : Inputs) (w0 : World) :
  button i = true -> incomplete i = false ->
  exists w pdf,
    prediction_logic m i w0 = Some (tt, w) /\
    rendered body w0 w =
      [st_download_button "📥 Download Report (PDF)" pdf
         "diabetes_report.pdf" "application/pdf"] /\
    (nth_error pdf 1 = Some (Str "Diabetes") <->
     In (st_error
           [Lit "⚠️ The model predicts this person **may have diabetes**."])
        (rendered tab1 w0 w)) /\
    (nth_error pdf 1 = Some (Str "No Diabetes") <->
     In (st_success
           [Lit "✅ The model predicts this person is **unlikely to have diabetes**."])
        (rendered tab1 w0 w)) /\
    nth_error pdf 3 = Some (Fix1 (proba w)) /\
    In (st_metric "Diabetes Risk Probability" [Fix1 (proba w); Lit "%"])
       (rendered tab1 w0 w) /\
    nth_error pdf 5 = Some (Int (health_score w)) /\
    In (st_metric "Health Score" [Int (health_score w); Lit "/100"])
       (rendered tab1 w0 w).
Proof.
  intros Hb Hi.
  destruct (run_pdf m i w0 Hb Hi)
    as (g & bp & ins & b & a & w & _ & _ & _ & _ & _ & _ & Hrun & _ & Ht & Hd).
  eexists w, _. split; [exact Hrun |]. split; [exact Hd |].
  rewrite Ht. unfold tab1_page, pdf_text, report_text.
  cbn [prediction proba health_score nth_error map snd In app].
  destruct (predict m _ =? 1)%Z; repeat split;
    try (intros [H | [H | [H | [H | [H | []]]]]]; discriminate H);
    try (intros H; discriminate H); tauto.
Qed.

Lemma report_agrees_with_tab1_witness :
  button Sample.at_risk = true /\ incomplete Sample.at_risk = false /\
  exists w pdf,
    prediction_logic (Sample.reporting 0.83) Sample.at_risk fresh = Some (tt, w) /\
    rendered body fresh w =
      [st_download_button "📥 Download Report (PDF)" pdf
         "diabetes_report.pdf" "application/pdf"] /\
    (nth_error pdf 1 = Some (Str "Diabetes") <->
     In (st_error
           [Lit "⚠️ The model predicts this person **may have diabetes**."])
        (rendered tab1 fresh w)) /\
    (nth_error pdf 1 = Some (Str "No Diabetes") <->
     In (st_success
           [Lit "✅ The model predicts this person is **unlikely to have diabetes**."])
        (rendered tab1 fresh w)) /\
    nth_error pdf 3 = Some (Fix1 (proba w)) /\
    In (st_metric "Diabetes Risk Probability" [Fix1 (proba w); Lit "%"])
       (rendered tab1 fresh w) /\
    nth_error pdf 5 = Some (Int (health_score w)) /\
    In (st_metric "Health Score" [Int (health_score w); Lit "/100"])
       (rendered tab1 fresh w).
Proof.
  repeat (split; [reflexivity |]).
  apply (report_agrees_with_tab1 (Sample.reporting 0.83) Sample.at_risk fresh);
    reflexivity.
Defined.

(** X7: the report prints back what was typed: the numbers in it are
    the five widget values in the order glucose, blood pressure,
    insulin, BMI, age, and its last hole is the location, verbatim. *)
Theorem report_lists_the_inputs
        (m : Classifier) (i : Inputs) (w0 : World)
        (g bp ins : Z) (b : Q) (a : Z) :
  button i = true ->
  glucose i = Some g -> blood_pressure i = Some bp -> insulin i = Some ins ->
  bmi i = Some b -> age i = Some a -> location i <> "" ->
  exists w pdf,
    prediction_logic m i w0 = Some (tt, w) /\
    rendered body w0 w =
      [st_download_button "📥 Download Report (PDF)" pdf
         "diabetes_report.pdf" "application/pdf"] /\
    nums pdf = [inject_Z g; inject_Z bp; inject_Z ins; b; inject_Z a] /\
    nth_error pdf 18 = Some (Str (location i)) /\
    List.length pdf = 20%nat.
Proof.
  intros Hb Hg Hbp Hins Hbmi Hage Hloc.
  assert (Hi : incomplete i = false).
  { apply not_true_iff_false. rewrite incomplete_true_iff.
    intros [H | [H | [H | [H | [H | H]]]]]; congruence. }
  destruct (run_pdf m i w0 Hb Hi)
    as (g' & bp' & ins' & b' & a' & w & Hg' & Hbp' & Hins' & Hbmi' & Hage'
        & _ & Hrun & _ & _ & Hd).
  assert (g' = g) by congruence. assert (bp' = bp) by congruence.
  assert (ins' = ins) by congruence. assert (b' = b) by congruence.
  assert (a' = a) by congruence. subst.
  eexists w, _. split; [exact Hrun |]. split; [exact Hd |].
  unfold pdf_text, report_text. cbn [prediction nth_error].
  repeat split.
Qed.

Lemma report_lists_the_inputs_witness :
  button Cases.elsewhere = true /\
  glucose Cases.elsewhere = Some 200 /\ blood_pressure Cases.elsewhere = Some 150 /\
  insulin Cases.elsewhere = Some 85 /\ bmi Cases.elsewhere = Some 25.5%Q /\
  age Cases.elsewhere = Some 35 /\ location Cases.elsewhere <> "" /\
  exists w pdf,
    prediction_logic Cases.contrary Cases.elsewhere fresh = Some (tt, w) /\
    rendered body fresh w =
      [st_download_button "📥 Download Report (PDF)" pdf
         "diabetes_report.pdf" "application/pdf"] /\
    nums pdf = [inject_Z 200; inject_Z 150; inject_Z 85; 25.5%Q; inject_Z 35] /\
    nth_error pdf 18 = Some (Str (location Cases.elsewhere)) /\
    List.length pdf = 20%nat.
Proof.
  repeat (split; [first [reflexivity | discriminate] |]).
  apply (report_lists_the_inputs Cases.contrary Cases.elsewhere fresh
           200 150 85 25.5%Q 35); first [reflexivity | discriminate].
Defined.

(** ** The chart *)





Lemma getitem_map_values {V W} (f : V -> W) (d : list (string * V)) (k : string) :
  getitem (map (fun kv => (fst kv, f (snd kv))) d) k = option_map f (getitem d k).
Proof.
  induction d as [| [k' v] d IH]; [reflexivity |].
  cbn [map getitem fst snd]. destruct (String.eqb k' k); [reflexivity | exact IH].
Qed.

(** X9: the healthy target drawn for an attribute is the midpoint of its
    healthy range and lies inside it, so a reading equal to the target
    is never flagged; [healthy_targets] has the keys of [healthy_ranges]
    in the same order. *)
Theorem healthy_target_is_inside_its_range (cat : string) (low high : Q) :
  getitem healthy_ranges cat = Some (low, high) ->
  keys healthy_targets = keys healthy_ranges /\
  exists target,
    getitem healthy_targets cat = Some target /\
    (target == (low + high) / 2)%Q /\
    (low <= target <= high)%Q /\
    outside target low high = false.
Proof.
  intros E. split; [reflexivity |].
  assert (Ht : getitem healthy_targets cat = Some ((low + high) / 2)%Q).
  { change healthy_targets
      with (map (fun kv : string * (Q * Q) =>
                   (fst kv, (fun r : Q * Q => ((fst r + snd r) / 2)%Q) (snd kv)))
                healthy_ranges).
    rewrite getitem_map_values, E. reflexivity. }
  pose proof (ranges_ordered _ _ _ E) as Hle.
  assert (Hin : (low <= (low + high) / 2 <= high)%Q).
  { unfold Qdiv. change (/ 2)%Q with (1 # 2)%Q. split; lra. }
  exists ((low + high) / 2)%Q. split; [exact Ht |].
  split; [reflexivity |]. split; [exact Hin |].
  apply outside_false. exact Hin.
Qed.

Lemma healthy_target_is_inside_its_range_witness :
  getitem healthy_ranges "BMI" = Some (18.5, 24.9)%Q /\
  keys healthy_targets = keys healthy_ranges /\
  exists target,
    getitem healthy_targets "BMI" = Some target /\
    (target == (18.5 + 24.9) / 2)%Q /\
    (18.5 <= target <= 24.9)%Q /\
    outside target 18.5 24.9 = false.
Proof.
  split; [reflexivity |].
  apply (healthy_target_is_inside_its_range "BMI" 18.5%Q 24.9%Q). reflexivity.
Defined.

(** ** Tab 3 *)

Lemma not_flagged_within_range (rows : list (string * Q)) :
  Forall known rows ->
  filter Spec.flagged rows = [] -> Forall Spec.within_range rows.
Proof.
  induction 1 as [| [cat val] rows Hk _ IH]; intros Hf; [constructor |].
  unfold known in Hk. cbn [fst] in Hk.
  destruct (getitem healthy_ranges cat) as [[low high] |] eqn:E;
    [clear Hk | contradiction].
  cbn [filter] in Hf. rewrite (flagged_outside _ _ _ _ E) in Hf.
  destruct (outside val low high) eqn:Ho; [discriminate Hf |].
  constructor; [| exact (IH Hf)].
  exists low, high. split; [exact E |]. apply outside_false. exact Ho.
Qed.

Lemma banner_or_steps (attention : list fstring) (cats : list string) :
  (In (st_success [Lit "✅ All entered values are within the healthy range."])
      (tab3_elements attention cats) <-> truthy attention = false) /\
  (In suggested_next_steps (tab3_elements attention cats)
   <-> truthy attention = true).
Proof.
  unfold tab3_elements. destruct (truthy attention); split; split;
    try discriminate; try reflexivity; cbn [In app].
  - intros [H | H]; [discriminate H |]. apply in_app_iff in H.
    destruct H as [H | [H | H]].
    + apply in_map_iff in H. destruct H as (msg & H & _). discriminate H.
    + discriminate H.
    + apply in_map_iff in H. destruct H as (c & H & _).
      unfold tip_markdown in H. destruct (getitem tips c); discriminate H.
  - intros _. right. apply in_app_iff. right. left. reflexivity.
  - intros _. right. left. reflexivity.
  - intros [H | [H | []]]; discriminate H.
Qed.

(** X10: for the five numbers typed into the widgets, tab 3 shows the
    green "all within the healthy range" banner if and only if each of
    the five lies within the healthy range of its attribute, and the
    "Suggested Next Steps" header if and only if not; it never shows
    both. *)
Theorem banner_iff_all_in_range
        (m : Classifier) (i : Inputs) (w0 : World)
        (g bp ins : Z) (b : Q) (a : Z) :
  button i = true ->
  glucose i = Some g -> blood_pressure i = Some bp -> insulin i = Some ins ->
  bmi i = Some b -> age i = Some a -> location i <> "" ->
  exists w,
    prediction_logic m i w0 = Some (tt, w) /\
    (In (st_success [Lit "✅ All entered values are within the healthy range."])
        (rendered tab3 w0 w)
     <-> Forall Spec.within_range
           [ ("Glucose", inject_Z g); ("Blood Pressure", inject_Z bp);
             ("Insulin", inject_Z ins); ("BMI", b); ("Age", inject_Z a) ]) /\
    (In (st_markdown [Lit "### 💡 Suggested Next Steps"]) (rendered tab3 w0 w)
     <-> ~ Forall Spec.within_range
             [ ("Glucose", inject_Z g); ("Blood Pressure", inject_Z bp);
               ("Insulin", inject_Z ins); ("BMI", b); ("Age", inject_Z a) ]).
Proof.
  intros Hb Hg Hbp Hins Hbmi Hage Hloc.
  set (values := [inject_Z g; inject_Z bp; inject_Z ins; b; inject_Z a]).
  exists (final m i values w0).
  split; [exact (run_on_fields m i w0 g bp ins b a Hb Hg Hbp Hins Hbmi Hage Hloc) |].
  change [ ("Glucose", inject_Z g); ("Blood Pressure", inject_Z bp);
           ("Insulin", inject_Z ins); ("BMI", b); ("Age", inject_Z a) ]
    with (combine Spec.attributes values).
  rewrite rendered_final.
  destruct (select_output m i values) as (_ & _ & _ & -> & _).
  destruct (banner_or_steps (map message (Spec.out_of_range_attributes values))
              (Spec.out_of_range_attributes values)) as [Hbanner Hsteps].
  fold suggested_next_steps. rewrite Hbanner, Hsteps, truthy_map.
  assert (Hiff : Spec.out_of_range_attributes values = [] <->
                 Forall Spec.within_range (combine Spec.attributes values)).
  { unfold Spec.out_of_range_attributes. split.
    - intros H. apply map_eq_nil in H.
      apply not_flagged_within_range; [| exact H].
      exact (proj1 (rows_known values)).
    - intros H. rewrite (within_range_not_flagged _ H). reflexivity. }
  rewrite <- Hiff.
  destruct (Spec.out_of_range_attributes values); cbn [truthy];
    split; split; intros H; try reflexivity; try discriminate;
    try congruence.
Qed.

Lemma banner_iff_all_in_range_witness :
  button Sample.on_the_bounds = true /\
  glucose Sample.on_the_bounds = Some 70 /\
  blood_pressure Sample.on_the_bounds = Some 120 /\
  insulin Sample.on_the_bounds = Some 16 /\
  bmi Sample.on_the_bounds = Some 24.9%Q /\
  age Sample.on_the_bounds = Some 50 /\
  location Sample.on_the_bounds <> "" /\
  exists w,
    prediction_logic Cases.contrary Sample.on_the_bounds fresh = Some (tt, w) /\
    (In (st_success [Lit "✅ All entered values are within the healthy range."])
        (rendered tab3 fresh w)
     <-> Forall Spec.within_range
           [ ("Glucose", inject_Z 70); ("Blood Pressure", inject_Z 120);
             ("Insulin", inject_Z 16); ("BMI", 24.9%Q); ("Age", inject_Z 50) ]) /\
    (In (st_markdown [Lit "### 💡 Suggested Next Steps"]) (rendered tab3 fresh w)
     <-> ~ Forall Spec.within_range
             [ ("Glucose", inject_Z 70); ("Blood Pressure", inject_Z 120);
               ("Insulin", inject_Z 16); ("BMI", 24.9%Q); ("Age", inject_Z 50) ]).
Proof.
  repeat (split; [first [reflexivity | discriminate] |]).
  apply (banner_iff_all_in_range Cases.contrary Sample.on_the_bounds fresh
           70 120 16 24.9%Q 50); first [reflexivity | discriminate].
Defined.

(** ** What a run depends on *)

(** X11: on complete inputs the classifier is asked about one row of
    exactly five numbers, in the order glucose, blood pressure, insulin,
    BMI, age: [predict] first, then, when the classifier has that
    method, [predict_proba] on the same row; a classifier without it
    gets the one call.  The label kept is the answer of [predict] on
    that row. *)
Theorem classifier_sees_the_five_numbers
        (m : Classifier) (i : Inputs) (w0 : World)
        (g bp ins : Z) (b : Q) (a : Z) :
  button i = true ->
  glucose i = Some g -> blood_pressure i = Some bp -> insulin i = Some ins ->
  bmi i = Some b -> age i = Some a -> location i <> "" ->
  exists w,
    prediction_logic m i w0 = Some (tt, w) /\
    called w0 w =
      call_predict [[inject_Z g; inject_Z bp; inject_Z ins; b; inject_Z a]]
      :: (if has_predict_proba m
          then [call_predict_proba
                  [[inject_Z g; inject_Z bp; inject_Z ins; b; inject_Z a]]]
          else []) /\
    prediction w =
      [predict m [inject_Z g; inject_Z bp; inject_Z ins; b; inject_Z a]].
Proof.
  intros Hb Hg Hbp Hins Hbmi Hage Hloc.
  set (row := [inject_Z g; inject_Z bp; inject_Z ins; b; inject_Z a]).
  exists (final m i row w0). split.
  - exact (run_on_fields m i w0 g bp ins b a Hb Hg Hbp Hins Hbmi Hage Hloc).
  - split; [| reflexivity]. unfold called, final. cbn [calls].
    apply skipn_app_exact.
Qed.

Lemma classifier_sees_the_five_numbers_witness :
  button Cases.elsewhere = true /\
  glucose Cases.elsewhere = Some 200 /\ blood_pressure Cases.elsewhere = Some 150 /\
  insulin Cases.elsewhere = Some 85 /\ bmi Cases.elsewhere = Some 25.5%Q /\
  age Cases.elsewhere = Some 35 /\ location Cases.elsewhere <> "" /\
  exists w,
    prediction_logic Sample.labels_only Cases.elsewhere Sample.stale
      = Some (tt, w) /\
    called Sample.stale w =
      call_predict [[inject_Z 200; inject_Z 150; inject_Z 85; 25.5%Q; inject_Z 35]]
      :: (if has_predict_proba Sample.labels_only
          then [call_predict_proba
                  [[inject_Z 200; inject_Z 150; inject_Z 85; 25.5%Q; inject_Z 35]]]
          else []) /\
    prediction w =
      [predict Sample.labels_only
         [inject_Z 200; inject_Z 150; inject_Z 85; 25.5%Q; inject_Z 35]].
Proof.
  repeat (split; [first [reflexivity | discriminate] |]).
  apply (classifier_sees_the_five_numbers Sample.labels_only Cases.elsewhere
           Sample.stale 200 150 85 25.5%Q 35);
    first [reflexivity | discriminate].
Defined.

Lemma same_fields_same_values (i1 i2 : Inputs) (values : list Q) :
  fields i1 = fields i2 ->
  patient_values i1 = Some values -> patient_values i2 = Some values.
Proof. unfold patient_values. intros <-. tauto. Qed.

(** X12: the chart and the recommendations depend on the five numbers
    alone: two runs on the same numbers give the same bar colours, the
    same attention list and the same tabs 2 and 3, whatever the
    classifier answers, whatever the location is and whatever an
    earlier run left behind. *)
Theorem readings_alone_decide_chart_and_tips
        (m1 m2 : Classifier) (i1 i2 : Inputs) (w1 w2 : World) :
  button i1 = true -> incomplete i1 = false ->
  button i2 = true -> incomplete i2 = false ->
  fields i1 = fields i2 ->
  exists v1 v2,
    prediction_logic m1 i1 w1 = Some (tt, v1) /\
    prediction_logic m2 i2 w2 = Some (tt, v2) /\
    colors v1 = colors v2 /\
    attention_needed v1 = attention_needed v2 /\
    rendered tab2 w1 v1 = rendered tab2 w2 v2 /\
    rendered tab3 w1 v1 = rendered tab3 w2 v2.
Proof.
  intros Hb1 Hi1 Hb2 Hi2 Hf.
  destruct (run_complete m1 i1 w1 Hb1 Hi1) as (values & Hv & Hrun1).
  destruct (run_complete m2 i2 w2 Hb2 Hi2) as (values' & Hv' & Hrun2).
  rewrite (same_fields_same_values i1 i2 values Hf Hv) in Hv'.
  injection Hv' as <-.
  exists (final m1 i1 values w1), (final m2 i2 values w2).
  split; [exact Hrun1 |]. split; [exact Hrun2 |].
  split; [reflexivity |]. split; [reflexivity |].
  rewrite !rendered_final.
  destruct (select_output m1 i1 values) as (_ & _ & -> & -> & _).
  destruct (select_output m2 i2 values) as (_ & _ & -> & -> & _).
  split; reflexivity.
Qed.

Lemma readings_alone_decide_chart_and_tips_witness :
  button Sample.at_risk = true /\ incomplete Sample.at_risk = false /\
  button Cases.elsewhere = true /\ incomplete Cases.elsewhere = false /\
  fields Sample.at_risk = fields Cases.elsewhere /\
  exists v1 v2,
    prediction_logic (Sample.reporting 0.83) Sample.at_risk fresh = Some (tt, v1) /\
    prediction_logic Sample.labels_only Cases.elsewhere Sample.stale
      = Some (tt, v2) /\
    colors v1 = colors v2 /\
    attention_needed v1 = attention_needed v2 /\
    rendered tab2 fresh v1 = rendered tab2 Sample.stale v2 /\
    rendered tab3 fresh v1 = rendered tab3 Sample.stale v2.
Proof.
  repeat (split; [reflexivity |]).
  apply (readings_alone_decide_chart_and_tips
           (Sample.reporting 0.83) Sample.labels_only
           Sample.at_risk Cases.elsewhere fresh Sample.stale); reflexivity.
Defined.

(** X13: the location never reaches the classifier and never moves the
    score: two runs of one classifier on the same five numbers make the
    same calls and end with the same label, probability and health
    score, whatever the two locations are. *)
Theorem location_does_not_move_the_score
        (m : Classifier) (i1 i2 : Inputs) (w1 w2 : World) :
  button i1 = true -> incomplete i1 = false ->
  button i2 = true -> incomplete i2 = false ->
  fields i1 = fields i2 ->
  exists v1 v2,
    prediction_logic m i1 w1 = Some (tt, v1) /\
    prediction_logic m i2 w2 = Some (tt, v2) /\
    called w1 v1 = called w2 v2 /\
    prediction v1 = prediction v2 /\
    proba v1 = proba v2 /\
    health_score v1 = health_score v2.
Proof.
  intros Hb1 Hi1 Hb2 Hi2 Hf.
  destruct (run_complete m i1 w1 Hb1 Hi1) as (values & Hv & Hrun1).
  destruct (run_complete m i2 w2 Hb2 Hi2) as (values' & Hv' & Hrun2).
  rewrite (same_fields_same_values i1 i2 values Hf Hv) in Hv'.
  injection Hv' as <-.
  exists (final m i1 values w1), (final m i2 values w2).
  split; [exact Hrun1 |]. split; [exact Hrun2 |].
  unfold called, final. cbn [calls prediction proba health_score].
  rewrite !skipn_app_exact. repeat split.
Qed.

Lemma location_does_not_move_the_score_witness :
  button Sample.at_risk = true /\ incomplete Sample.at_risk = false /\
  button Cases.elsewhere = true /\ incomplete Cases.elsewhere = false /\
  fields Sample.at_risk = fields Cases.elsewhere /\
  exists v1 v2,
    prediction_logic Cases.contrary Sample.at_risk fresh = Some (tt, v1) /\
    prediction_logic Cases.contrary Cases.elsewhere Sample.stale = Some (tt, v2) /\
    called fresh v1 = called Sample.stale v2 /\
    prediction v1 = prediction v2 /\
    proba v1 = proba v2 /\
    health_score v1 = health_score v2.
Proof.
  repeat (split; [reflexivity |]).
  apply (location_does_not_move_the_score Cases.contrary
           Sample.at_risk Cases.elsewhere fresh Sample.stale); reflexivity.
Defined.

(** ** The whole script *)


